(** * Coach Marketplace API: a shallow embedding of [main.py]

    The request handlers of [main.py] are embedded as functions in a
    state-and-exception monad over an explicit world: the module-level store
    handle [db], the process environment and the clock.  Documents are Python
    dicts, modelled as finite maps from field names to values; a collection is
    the list of its documents in store-native order. *)

From Stdlib Require Import ZArith NArith List Ascii String Sorted Permutation Lia.
From stdpp Require Import base option list gmap strings pretty.

Set Warnings "-register-all".

Local Open Scope string_scope.
Local Open Scope Z_scope.

(** ** Python strings

    A Python [str] is kept as the UTF-8 bytes of its text.  Slicing and [len]
    count code points, so both skip continuation bytes (10xxxxxx). *)

Definition is_continuation (c : ascii) : bool :=
  let n := N_of_ascii c in (128 <=? n)%N && (n <? 192)%N.

(** [len(s)] *)
Fixpoint str_len (s : string) : nat :=
  match s with
  | EmptyString => 0%nat
  | String c s' => if is_continuation c then str_len s' else S (str_len s')
  end.

(** [s[:n]] *)
Fixpoint str_prefix (n : nat) (s : string) : string :=
  match s with
  | EmptyString => EmptyString
  | String c s' =>
      if is_continuation c then String c (str_prefix n s')
      else match n with
           | O => EmptyString
           | S n' => String c (str_prefix n' s')
           end
  end.

Definition ascii_lower (c : ascii) : ascii :=
  let n := N_of_ascii c in
  if (65 <=? n)%N && (n <=? 90)%N then ascii_of_N (n + 32) else c.

Fixpoint str_lower (s : string) : string :=
  match s with
  | EmptyString => EmptyString
  | String c s' => String (ascii_lower c) (str_lower s')
  end.

Definition is_hex_digit (c : ascii) : bool :=
  let n := N_of_ascii c in
  ((48 <=? n)%N && (n <=? 57)%N) || ((65 <=? n)%N && (n <=? 70)%N)
  || ((97 <=? n)%N && (n <=? 102)%N).

Fixpoint str_forallb (p : ascii -> bool) (s : string) : bool :=
  match s with
  | EmptyString => true
  | String c s' => p c && str_forallb p s'
  end.

(** ** Exceptions and results *)

(** The exception classes the handlers meet.  All of them derive from
    Python's [Exception], [HTTPException] included, so an [except Exception]
    clause catches every constructor. *)
Inductive Exn : Type :=
| HTTPException (status_code : Z) (detail : string)
| InvalidId (msg : string)
| TypeError (msg : string)
| KeyError (msg : string)
| PyMongoError (msg : string)
| Exception (msg : string).

(** [str(e)] *)
Definition exn_str (e : Exn) : string :=
  match e with
  | HTTPException status_code detail => pretty status_code +:+ ": " +:+ detail
  | InvalidId msg | TypeError msg | KeyError msg | PyMongoError msg
  | Exception msg => msg
  end.

Inductive Result (A : Type) : Type :=
| Ok (a : A)
| Raise (e : Exn).
Arguments Ok {A} a.
Arguments Raise {A} e.

Definition is_ok {A} (r : Result A) : bool :=
  match r with Ok _ => true | Raise _ => false end.

(** A computation over a mutable state [S] that returns or raises.  State
    changes made before a [raise] stay: Python does not roll mutations back. *)
Definition M (S A : Type) : Type := S -> Result A * S.

Definition ret {S A} (a : A) : M S A := fun s => (Ok a, s).

Definition raise {S A} (e : Exn) : M S A := fun s => (Raise e, s).

Definition bind {S A B} (m : M S A) (k : A -> M S B) : M S B :=
  fun s => match m s with
           | (Ok a, s') => k a s'
           | (Raise e, s') => (Raise e, s')
           end.

(** [try: body  except Exception as e: handler(e)] *)
Definition try_except {S A} (body : M S A) (handler : Exn -> M S A) : M S A :=
  fun s => match body s with
           | (Ok a, s') => (Ok a, s')
           | (Raise e, s') => handler e s'
           end.

Definition get {S} : M S S := fun s => (Ok s, s).

Definition modify {S} (f : S -> S) : M S unit := fun s => (Ok tt, f s).

(** Runs a computation on one component of the state. *)
Definition zoom {S T A} (proj : S -> T) (inj : T -> S -> S) (m : M T A) : M S A :=
  fun s => let '(r, t') := m (proj s) in (r, inj t' s).

Declare Scope py_scope.
Delimit Scope py_scope with py.
Notation "x <~ m ;; k" := (bind m (fun x => k))
  (at level 100, m at next level, right associativity) : py_scope.
Notation "m ;;; k" := (bind m (fun _ => k))
  (at level 100, right associativity) : py_scope.
Local Open Scope py_scope.

(** ** Store identifiers *)

(** A [bson.ObjectId]: twelve bytes, kept as their 24 lowercase hex digits
    (what [str(oid)] prints). *)
Inductive ObjectId : Type := Oid (hex : string).

Definition oid_str (o : ObjectId) : string := let 'Oid h := o in h.

#[export] Instance ObjectId_eq_dec : EqDecision ObjectId.
Proof. solve_decision. Defined.

(** A string is a well-formed identifier when it is 24 hexadecimal digits. *)
Definition oid_is_valid (s : string) : bool :=
  (String.length s =? 24)%nat && str_forallb is_hex_digit s.

(** [ObjectId(s)] for a [str] argument: raises [InvalidId] unless [s] is
    well-formed. *)
Definition ObjectId_of_str (s : string) : Result ObjectId :=
  if oid_is_valid s then Ok (Oid (str_lower s))
  else Raise (InvalidId (s +:+ " is not a valid ObjectId")).

(** Identifiers the store hands out: the 24 hex digits of a counter. *)
Definition hex_digit (n : N) : ascii :=
  match String.get (N.to_nat n) "0123456789abcdef" with
  | Some c => c
  | None => "0"%char
  end.

Fixpoint hex_of (digits : nat) (n : N) : string :=
  match digits with
  | O => EmptyString
  | S k => hex_of k (n / 16)%N +:+ String (hex_digit (n mod 16)%N) EmptyString
  end.

Definition fresh_oid (counter : N) : ObjectId := Oid (hex_of 24 counter).

(** ** Values and documents *)

(** The values a document field holds.  [num] is the type of Python numbers
    ([int] and [float]); see [Platform] below. *)
Inductive Value (num : Type) : Type :=
| VNone
| VNum (n : num)
| VStr (s : string)
| VOid (o : ObjectId)
| VDate (t : Z)
| VList (l : list (Value num)).
Arguments VNone {num}.
Arguments VNum {num} n.
Arguments VStr {num} s.
Arguments VOid {num} o.
Arguments VDate {num} t.
Arguments VList {num} l.

(** A Python dict with string keys: a document, a request or response body. *)
Abbreviation Doc num := (gmap string (Value num)).

(** Substring test. *)
Fixpoint str_is_prefix (p s : string) : bool :=
  match p, s with
  | EmptyString, _ => true
  | String a p', String b s' => if Ascii.eqb a b then str_is_prefix p' s' else false
  | String _ _, EmptyString => false
  end.

Fixpoint str_contains (p s : string) : bool :=
  str_is_prefix p s ||
  match s with
  | EmptyString => false
  | String _ s' => str_contains p s'
  end.

(** The characters PCRE reads as syntax. *)
Definition is_regex_meta (c : ascii) : bool :=
  existsb (Ascii.eqb c) (list_ascii_of_string "\^$.|?*+()[]{}").

Definition is_literal_pattern (p : string) : bool :=
  str_forallb (fun c => negb (is_regex_meta c)) p.

(** ** The platform

    What [main.py] takes from Python and from the document store without
    defining it: arithmetic on numbers, [str], the store's sort order on
    values and its regular-expression engine.  The laws are the facts about
    them that the handlers rely on. *)
Class Platform (num : Type) : Type := {
  (** the [int] with value [z] *)
  py_int : Z -> num;
  (** [sum(xs)] *)
  py_sum : list num -> num;
  (** [a / b], for a non-zero [b] *)
  py_truediv : num -> num -> num;
  (** [round(x, ndigits)] *)
  py_round : num -> Z -> num;
  (** [str(v)] *)
  py_str : Value num -> string;
  py_str_oid : forall o, py_str (VOid o) = oid_str o;
  (** the store's comparison order on values (an absent field compares as
      null, [VNone]) *)
  bson_leb : Value num -> Value num -> bool;
  bson_leb_total : forall a b, bson_leb a b = true \/ bson_leb b a = true;
  bson_leb_trans : forall a b c,
    bson_leb a b = true -> bson_leb b c = true -> bson_leb a c = true;
  bson_leb_date : forall s t, bson_leb (VDate s) (VDate t) = (s <=? t);
  (** the case folding of the store's regular-expression engine *)
  fold_case : string -> string;
  (** compiling [{"$regex": pattern, "$options": options}]: the unanchored
      search predicate, or the store's error for an ill-formed pattern *)
  regex_compile : string -> string -> Result (string -> bool);
  regex_compile_literal : forall p,
    is_literal_pattern p = true ->
    exists f, regex_compile p "i" = Ok f
              /\ forall s, f s = str_contains (fold_case p) (fold_case s)
}.

(** [s] contains [p], letter case apart. *)
Definition ci_contains {num : Type} `{Platform num} (p s : string) : bool :=
  str_contains (fold_case p) (fold_case s).

(** ** The document store *)

(** A condition on one field of a query filter. *)
Inductive Cond : Type :=
| CEqStr (s : string)                    (* {field: "s"} *)
| CEqOid (o : ObjectId)                  (* {field: ObjectId(...)} *)
| CRegex (pattern options : string).     (* {field: {"$regex": .., "$options": ..}} *)

(** A key of the filter dict with its value.  The keys of one filter are
    taken together (a conjunction); the dicts under ["$or"] are alternatives. *)
Inductive Clause : Type :=
| Field (name : string) (c : Cond)
| Or (alternatives : list (list (string * Cond))).

Abbreviation Filter := (list Clause).

Section Store.
Context {num : Type} `{Platform num}.

Record Database : Type := mkDatabase {
  (** [db.name], when the handle has that attribute *)
  db_name : option string;
  (** collection name to documents, in store-native order *)
  collections : gmap string (list (Doc num));
  (** the counter identifiers are drawn from *)
  next_id : N;
  (** what the coming driver calls meet: [Some e] makes the call raise [e]
      (store unreachable, timeout, ...), [None] lets it through; past the end
      of the script every call goes through *)
  faults : list (option Exn)
}.

Definition set_collections (f : gmap string (list (Doc num)) -> gmap string (list (Doc num)))
    (d : Database) : Database :=
  mkDatabase (db_name d) (f (collections d)) (next_id d) (faults d).

Definition set_faults (fs : list (option Exn)) (d : Database) : Database :=
  mkDatabase (db_name d) (collections d) (next_id d) fs.

Definition set_next_id (n : N) (d : Database) : Database :=
  mkDatabase (db_name d) (collections d) n (faults d).

(** The documents of a collection; a collection that was never written to is
    empty. *)
Definition coll (d : Database) (name : string) : list (Doc num) :=
  default [] (collections d !! name).

(** Every call into the driver starts here. *)
Definition driver_call : M Database unit :=
  fun d => match faults d with
           | [] => (Ok tt, d)
           | None :: fs => (Ok tt, set_faults fs d)
           | Some e :: fs => (Raise e, set_faults fs d)
           end.

(** A field matches a string when it is that string or a list holding it. *)
Definition is_str (s : string) (v : Value num) : bool :=
  match v with
  | VStr s' => bool_decide (s = s')
  | _ => false
  end.

Definition is_oid (o : ObjectId) (v : Value num) : bool :=
  match v with
  | VOid o' => bool_decide (o = o')
  | _ => false
  end.

Definition is_match (f : string -> bool) (v : Value num) : bool :=
  match v with
  | VStr s => f s
  | _ => false
  end.

(** A test on a field's value that also holds when the value is a list with
    an element passing it; an absent field passes none. *)
Definition field_has (test : Value num -> bool) (v : option (Value num)) : bool :=
  match v with
  | None => false
  | Some (VList l) => test (VList l) || existsb test l
  | Some v => test v
  end.

Definition compile_cond (c : Cond) : Result (option (Value num) -> bool) :=
  match c with
  | CEqStr s => Ok (field_has (is_str s))
  | CEqOid o => Ok (field_has (is_oid o))
  | CRegex pattern options =>
      match regex_compile pattern options with
      | Ok f => Ok (field_has (is_match f))
      | Raise e => Raise e
      end
  end.

(** A dict of field conditions: all of them must hold. *)
Fixpoint compile_fields (fs : list (string * Cond)) : Result (Doc num -> bool) :=
  match fs with
  | [] => Ok (fun _ => true)
  | (name, c) :: fs' =>
      match compile_cond c, compile_fields fs' with
      | Ok p, Ok q => Ok (fun doc => p (doc !! name) && q doc)
      | Raise e, _ => Raise e
      | _, Raise e => Raise e
      end
  end.

Fixpoint compile_alternatives (alts : list (list (string * Cond))) : Result (Doc num -> bool) :=
  match alts with
  | [] => Ok (fun _ => false)
  | a :: alts' =>
      match compile_fields a, compile_alternatives alts' with
      | Ok p, Ok q => Ok (fun doc => p doc || q doc)
      | Raise e, _ => Raise e
      | _, Raise e => Raise e
      end
  end.

Definition compile_clause (c : Clause) : Result (Doc num -> bool) :=
  match c with
  | Field name c => compile_fields [(name, c)]
  | Or alts => compile_alternatives alts
  end.

(** The store parses the whole filter before it looks at a document, so an
    ill-formed pattern fails the query even on an empty collection. *)
Fixpoint compile_filter (filt : Filter) : Result (Doc num -> bool) :=
  match filt with
  | [] => Ok (fun _ => true)
  | c :: filt' =>
      match compile_clause c, compile_filter filt' with
      | Ok p, Ok q => Ok (fun doc => p doc && q doc)
      | Raise e, _ => Raise e
      | _, Raise e => Raise e
      end
  end.

Definition lift {S A} (r : Result A) : M S A := fun s => (r, s).

(** The key a document is sorted by: an absent field counts as null. *)
Definition sort_key (field : string) (doc : Doc num) : Value num :=
  default VNone (doc !! field).

(** [precedes field direction a b]: [a] may stand before [b]. *)
Definition precedes (field : string) (direction : Z) (a b : Doc num) : bool :=
  if direction <? 0 then bson_leb (sort_key field b) (sort_key field a)
  else bson_leb (sort_key field a) (sort_key field b).

Fixpoint insert_sorted {A} (le : A -> A -> bool) (x : A) (l : list A) : list A :=
  match l with
  | [] => [x]
  | y :: l' => if le x y then x :: y :: l' else y :: insert_sorted le x l'
  end.

Definition sort_by {A} (le : A -> A -> bool) (l : list A) : list A :=
  foldr (insert_sorted le) [] l.

(** [list(db[name].find(filt).sort(field, direction).limit(n))], with the
    sort and the limit optional. *)
Definition find (name : string) (filt : Filter) (sort : option (string * Z))
    (limit : option nat) : M Database (list (Doc num)) :=
  driver_call;;;
  p <~ lift (compile_filter filt);;
  d <~ get;;
  let docs := List.filter p (coll d name) in
  let docs := match sort with
              | Some (field, direction) => sort_by (precedes field direction) docs
              | None => docs
              end in
  ret (match limit with Some n => take n docs | None => docs end).

(** [db[name].find_one(filt)]: the first match in store order, or [None]. *)
Definition find_one (name : string) (filt : Filter) : M Database (option (Doc num)) :=
  driver_call;;;
  p <~ lift (compile_filter filt);;
  d <~ get;;
  ret (List.find p (coll d name)).

Fixpoint update_first {A} (p : A -> bool) (f : A -> A) (l : list A) : list A :=
  match l with
  | [] => []
  | x :: l' => if p x then f x :: l' else x :: update_first p f l'
  end.

(** [db[name].update_one(filt, {"$set": fields})]: the first match gets the
    fields; without a match nothing is written. *)
Definition update_one (name : string) (filt : Filter) (fields : Doc num) : M Database unit :=
  driver_call;;;
  p <~ lift (compile_filter filt);;
  modify (fun d =>
    if existsb p (coll d name)
    then set_collections <[name := update_first p (fun doc => fields ∪ doc) (coll d name)]> d
    else d).

(** [db[name].insert_one(data).inserted_id]: the store gives the document an
    identifier unless it carries one, and appends it. *)
Definition insert_one (name : string) (data : Doc num) : M Database (Value num) :=
  driver_call;;;
  d <~ get;;
  let '(doc, d) := match data !! "_id" with
                   | Some _ => (data, d)
                   | None => (<["_id" := VOid (fresh_oid (next_id d))]> data,
                              set_next_id (next_id d + 1)%N d)
                   end in
  modify (fun _ => set_collections <[name := (coll d name ++ [doc])%list]> d);;;
  ret (default VNone (doc !! "_id")).

(** [db.list_collection_names()] *)
Definition list_collection_names : M Database (list string) :=
  driver_call;;;
  d <~ get;;
  ret (fst <$> map_to_list (collections d)).

End Store.

Arguments Database : clear implicits.

(** ** The world of a request *)

Section Handlers.
Context {num : Type} `{Platform num}.

Record World : Type := mkWorld {
  (** the module-level store handle of [database.py]; [None] when the store
      was not configured *)
  db : option (Database num);
  (** [os.getenv("DATABASE_URL")] *)
  DATABASE_URL : option string;
  (** what [datetime.utcnow()] returns *)
  utcnow : Z
}.

Definition set_db (d : option (Database num)) (w : World) : World :=
  mkWorld d (DATABASE_URL w) (utcnow w).

(** [db[name]]: subscripting the handle; [None] is not subscriptable. *)
Definition db_getitem : M World unit :=
  fun w => match db w with
           | Some _ => (Ok tt, w)
           | None => (Raise (TypeError "'NoneType' object is not subscriptable"), w)
           end.

(** A driver call through the handle. *)
Definition with_db {A} (m : M (Database num) A) : M World A :=
  fun w => match db w with
           | Some d => let '(r, d') := m d in (r, set_db (Some d') w)
           | None => (Raise (TypeError "'NoneType' object is not subscriptable"), w)
           end.

(** Python truthiness of an [Optional[str]]: [None] and the empty string are
    false. *)
Definition truthy (s : option string) : bool :=
  match s with
  | Some s => negb (String.eqb s "")
  | None => false
  end.

(** Modelled from the spec: [database.create_document] ([database.py] is not
    among the sources).  "insert-document(collection, data) → id": the
    document is inserted as given and the new identifier comes back as a
    string.  Without a store handle there is nothing to insert into, and the
    call raises. *)
Definition create_document (collection_name : string) (data : Doc num) : M World string :=
  fun w => match db w with
           | Some _ => (inserted_id <~ with_db (insert_one collection_name data);;
                        ret (py_str inserted_id)) w
           | None => (Raise (Exception "Database not available"), w)
           end.

(** Modelled from the spec: [database.get_documents] ([database.py] is not
    among the sources).  "find-documents(collection, filter, limit, sort) →
    ordered sequence of documents": the matching documents in store-native
    order, cut to [limit] when one is given. *)
Definition get_documents (collection_name : string) (filter_dict : Filter)
    (limit : option nat) : M World (list (Doc num)) :=
  fun w => match db w with
           | Some _ => with_db (find collection_name filter_dict None limit) w
           | None => (Raise (Exception "Database not available"), w)
           end.

(** [d.get(key)]: an absent key reads as [None]. *)
Definition dict_get (key : string) (d : Doc num) : Value num :=
  default VNone (d !! key).

(** [d.setdefault(key, value)]: writes only when the key is absent. *)
Definition setdefault (key : string) (value : Value num) (d : Doc num) : Doc num :=
  match d !! key with
  | Some _ => d
  | None => <[key := value]> d
  end.

(** The loop body shared by the list endpoints:
    [c["id"] = str(c.get("_id")); c.pop("_id", None)]. *)
Definition rename_id (c : Doc num) : Doc num :=
  delete "_id" (<["id" := VStr (py_str (dict_get "_id" c))]> c).

(** *** Diagnostics: [GET /test] *)

(** The handler's frame: its local [response] dict beside the world. *)
Definition set_response (key : string) (v : Value num) : M (Doc num * World) unit :=
  modify (fun '(response, w) => (<[key := v]> response, w)).

Definition in_world {A} (m : M World A) : M (Doc num * World) A :=
  zoom snd (fun w '(response, _) => (response, w)) m.

Definition test_database_body : M (Doc num * World) unit :=
  try_except
    (frame <~ get;;
     match db (snd frame) with
     | Some d =>
         set_response "database" (VStr "✅ Available");;;
         set_response "database_url"
           (VStr (if truthy (DATABASE_URL (snd frame)) then "✅ Set" else "❌ Not Set"));;;
         set_response "database_name"
           (VStr (match db_name d with Some name => name | None => "✅ Connected" end));;;
         set_response "connection_status" (VStr "Connected");;;
         try_except
           (collections <~ in_world (with_db list_collection_names);;
            set_response "collections" (VList (VStr <$> take 10 collections));;;
            set_response "database" (VStr "✅ Connected & Working"))
           (fun e =>
              set_response "database"
                (VStr ("⚠️  Connected but Error: " +:+ str_prefix 80 (exn_str e))))
     | None =>
         set_response "database" (VStr "⚠️  Available but not initialized")
     end)
    (fun e => set_response "database" (VStr ("❌ Error: " +:+ str_prefix 80 (exn_str e)))).

Definition test_database : M World (Doc num) :=
  fun w =>
    let response : Doc num :=
      {[ "backend" := VStr "✅ Running";
         "database" := VStr "❌ Not Available";
         "database_url" := VNone;
         "database_name" := VNone;
         "connection_status" := VStr "Not Connected";
         "collections" := VList [] ]} in
    match test_database_body (response, w) with
    | (Ok _, (response, w')) => (Ok response, w')
    | (Raise e, (_, w')) => (Raise e, w')
    end.

(** *** Coaches *)

Record CoachQuery : Type := mkCoachQuery {
  sport : option string;
  city : option string;
  state : option string;
  q : option string
}.

(** [filt[key] = value] on a dict that has no such key yet. *)
Definition add_clause (cond : bool) (c : Clause) (filt : Filter) : Filter :=
  if cond then (filt ++ [c])%list else filt.

Definition search_filter (query : CoachQuery) : Filter :=
  let filt := [] in
  let filt := add_clause (truthy (sport query))
                (Field "sports" (CEqStr (default "" (sport query)))) filt in
  let filt := add_clause (truthy (city query))
                (Field "location_city" (CRegex (default "" (city query)) "i")) filt in
  let filt := add_clause (truthy (state query))
                (Field "location_state" (CRegex (default "" (state query)) "i")) filt in
  let filt := add_clause (truthy (q query))
                (Or [ [("full_name", CRegex (default "" (q query)) "i")];
                      [("bio", CRegex (default "" (q query)) "i")] ]) filt in
  filt.

(** [POST /coaches/search]; the result is the list under ["items"]. *)
Definition search_coaches (query : CoachQuery) : M World (list (Doc num)) :=
  coaches <~ get_documents "coach" (search_filter query) (Some 50%nat);;
  ret (rename_id <$> coaches).

(** [GET /coaches/{coach_id}] *)
Definition get_coach (coach_id : string) : M World (Doc num) :=
  try_except
    (db_getitem;;;
     oid <~ lift (ObjectId_of_str coach_id);;
     doc <~ with_db (find_one "coach" [Field "_id" (CEqOid oid)]);;
     match doc with
     | Some doc =>
         if bool_decide (doc = ∅)
         then raise (HTTPException 404 "Coach not found")
         else match doc !! "_id" with
              | Some id => ret (delete "_id" (<["id" := VStr (py_str id)]> doc))
              | None => raise (KeyError "'_id'")
              end
     | None => raise (HTTPException 404 "Coach not found")
     end)
    (fun _ => raise (HTTPException 400 "Invalid coach id")).

(** *** Reviews *)

(** A validated [Review] body.  The schema class lives in [schemas.py], which
    is not among the sources: the handler reads the attribute [coach_id], and
    everything else reaches it only through [model_dump()], kept here as the
    dict of the remaining fields. *)
Record Review : Type := mkReview {
  review_coach_id : string;
  review_fields : Doc num
}.

(** [review.model_dump()] *)
Definition review_model_dump (review : Review) : Doc num :=
  <["coach_id" := VStr (review_coach_id review)]> (review_fields review).

(** [r.get("rating", 0)] as a summand: [sum] raises [TypeError] on a value
    that is not a number. *)
Definition rating_summand (r : Doc num) : Result num :=
  match r !! "rating" with
  | None => Ok (py_int 0)
  | Some (VNum n) => Ok n
  | Some _ => Raise (TypeError "unsupported operand type(s) for +")
  end.

Fixpoint summands (rs : list (Doc num)) : Result (list num) :=
  match rs with
  | [] => Ok []
  | r :: rs' =>
      match rating_summand r, summands rs' with
      | Ok n, Ok ns => Ok (n :: ns)
      | Raise e, _ => Raise e
      | _, Raise e => Raise e
      end
  end.

(** The body of the [try] block that updates the coach's aggregates. *)
Definition update_coach_aggregates (review : Review) : M World unit :=
  coach_oid <~ lift (ObjectId_of_str (review_coach_id review));;
  reviews <~ with_db (find "review" [Field "coach_id" (CEqStr (review_coach_id review))]
                        None None);;
  match reviews with
  | [] => ret tt
  | _ :: _ =>
      ratings <~ lift (summands reviews);;
      let avg := py_truediv (py_sum ratings) (py_int (Z.of_nat (length reviews))) in
      with_db (update_one "coach" [Field "_id" (CEqOid coach_oid)]
                 {[ "average_rating" := VNum (py_round avg 2);
                    "review_count" := VNum (py_int (Z.of_nat (length reviews))) ]})
  end.

(** [POST /reviews]; the result is the string under ["id"]. *)
Definition create_review (review : Review) : M World string :=
  let data := review_model_dump review in
  w <~ get;;
  let data := setdefault "created_at" (VDate (utcnow w)) data in
  review_id <~ create_document "review" data;;
  try_except (update_coach_aggregates review) (fun _ => ret tt);;;
  ret review_id.

(** [GET /coaches/{coach_id}/reviews] *)
Definition list_reviews (coach_id : string) : M World (list (Doc num)) :=
  items <~ with_db (find "review" [Field "coach_id" (CEqStr coach_id)]
                      (Some ("created_at", -1)) None);;
  ret (rename_id <$> items).

(** *** Bookings *)

(** A validated [Booking] body: the two attributes the handler reads, and the
    remaining fields as [model_dump()] gives them ([schemas.py] is not among
    the sources). *)
Record Booking : Type := mkBooking {
  user_type : string;
  athlete_age : option Z;
  booking_fields : Doc num
}.

Definition booking_model_dump (booking : Booking) : Doc num :=
  <["user_type" := VStr (user_type booking)]>
    (<["athlete_age" := match athlete_age booking with
                        | Some age => VNum (py_int age)
                        | None => VNone
                        end]> (booking_fields booking)).

(** The validation at the head of [create_booking]. *)
Definition check_age_rule (booking : Booking) : M World unit :=
  if String.eqb (user_type booking) "adult" then
    if match athlete_age booking with Some age => age <? 18 | None => false end
    then raise (HTTPException 400 "Adults must be 18+")
    else ret tt
  else
    if match athlete_age booking with Some age => 18 <=? age | None => true end
    then raise (HTTPException 400
                  "Provide athlete_age for parent bookings and must be < 18")
    else ret tt.

(** [POST /bookings]; the result is the string under ["id"]. *)
Definition create_booking (booking : Booking) : M World string :=
  check_age_rule booking;;;
  booking_id <~ create_document "booking" (booking_model_dump booking);;
  ret booking_id.

(** [GET /coaches/{coach_id}/bookings] *)
Definition list_bookings_for_coach (coach_id : string) : M World (list (Doc num)) :=
  items <~ with_db (find "booking" [Field "coach_id" (CEqStr coach_id)]
                      (Some ("created_at", -1)) None);;
  ret (rename_id <$> items).

End Handlers.

Arguments World : clear implicits.
Arguments Review : clear implicits.
Arguments Booking : clear implicits.

Section CoachCreation.
Context {num : Type} `{Platform num}.

(** A validated [Coach] body.  The schema class lives in [schemas.py], which
    is not among the sources; the handler reads no attribute of it, so the
    body is kept as the dict [model_dump()] gives. *)
Record Coach : Type := mkCoach {
  coach_fields : Doc num
}.

(** [POST /coaches]; the result is the string under ["id"]. *)
Definition create_coach (coach : Coach) : M (World num) string :=
  coach_id <~ create_document "coach" (coach_fields coach);;
  ret coach_id.

End CoachCreation.

Arguments Coach : clear implicits.

(** ** A reference platform

    An instance of [Platform] to run the handlers on: numbers are exact
    rationals, values are ordered by type bracket and then by content, and the
    regular-expression engine reads patterns made of plain characters and the
    wildcard [.]; any other pattern syntax is answered with the store's error. *)
Module Reference.

Import QArith.
Local Open Scope Z_scope.

Definition sum (xs : list Q) : Q := Qred (fold_right Qplus (0 # 1)%Q xs).

Definition truediv (a b : Q) : Q := Qred (a / b)%Q.

(** The integer nearest to [x], ties to the even one. *)
Definition round_half_even (x : Q) : Z :=
  let n := Qnum x in
  let d := Z.pos (Qden x) in
  let fl := n / d in
  let r := n mod d in
  match 2 * r ?= d with
  | Lt => fl
  | Gt => fl + 1
  | Eq => if Z.even fl then fl else fl + 1
  end.

Definition round (x : Q) (ndigits : Z) : Q :=
  let scale := inject_Z (10 ^ Z.abs ndigits) in
  if 0 <=? ndigits
  then Qred (inject_Z (round_half_even (x * scale)%Q) / scale)%Q
  else Qred (inject_Z (round_half_even (x / scale)%Q) * scale)%Q.

Definition num_str (x : Q) : string :=
  if (Qden x =? 1)%positive then pretty (Qnum x)
  else pretty (Qnum x) +:+ "/" +:+ pretty (Z.pos (Qden x)).

Definition str (v : Value Q) : string :=
  match v with
  | VNone => "None"
  | VNum n => num_str n
  | VStr s => s
  | VOid o => oid_str o
  | VDate t => pretty t
  | VList l => "[...]"
  end.

(** The type brackets of the store's comparison order. *)
Definition bracket (v : Value Q) : Z :=
  match v with
  | VNone => 0
  | VNum _ => 1
  | VStr _ => 2
  | VList _ => 3
  | VOid _ => 4
  | VDate _ => 5
  end.

Definition leb (a b : Value Q) : bool :=
  match a, b with
  | VNum x, VNum y => Qle_bool x y
  | VStr s, VStr t => String.leb s t
  | VOid o, VOid p => String.leb (oid_str o) (oid_str p)
  | VDate s, VDate t => s <=? t
  | _, _ => bracket a <=? bracket b
  end.

Inductive Atom : Type :=
| Lit (c : ascii)
| AnyChar.

Definition parse_atom (c : ascii) : option Atom :=
  if Ascii.eqb c "."%char then Some AnyChar
  else if is_regex_meta c then None
  else Some (Lit c).

Fixpoint parse (pattern : string) : option (list Atom) :=
  match pattern with
  | EmptyString => Some []
  | String c pattern' =>
      match parse_atom c, parse pattern' with
      | Some a, Some atoms => Some (a :: atoms)
      | _, _ => None
      end
  end.

Definition atom_matches (ci : bool) (a : Atom) (c : ascii) : bool :=
  match a with
  | Lit x => if ci then Ascii.eqb (ascii_lower x) (ascii_lower c) else Ascii.eqb x c
  | AnyChar => negb (Ascii.eqb c "010"%char)
  end.

Fixpoint match_here (ci : bool) (atoms : list Atom) (s : string) : bool :=
  match atoms, s with
  | [], _ => true
  | a :: atoms', String c s' =>
      if atom_matches ci a c then match_here ci atoms' s' else false
  | _ :: _, EmptyString => false
  end.

Fixpoint search (ci : bool) (atoms : list Atom) (s : string) : bool :=
  match_here ci atoms s ||
  match s with
  | EmptyString => false
  | String _ s' => search ci atoms s'
  end.

Definition compile (pattern options : string) : Result (string -> bool) :=
  match parse pattern with
  | Some atoms => Ok (search (str_contains "i" options) atoms)
  | None => Raise (PyMongoError "Regular expression is invalid")
  end.

Lemma leb_total (a b : Value Q) : leb a b = true \/ leb b a = true.
Proof.
  destruct a, b; simpl; try (left; reflexivity); try (right; reflexivity).
  - rewrite !Qle_bool_iff. destruct (Qlt_le_dec n n0) as [Hlt | Hle]; [left | right]; auto.
    apply Qlt_le_weak; exact Hlt.
  - apply String.leb_total.
  - apply String.leb_total.
  - destruct (Z.leb_spec t t0); [left; reflexivity | right; apply Z.leb_le; lia].
Qed.

Lemma leb_trans (a b c : Value Q) :
  leb a b = true -> leb b c = true -> leb a c = true.
Proof.
  destruct a, b, c; simpl; try reflexivity; try discriminate; intros Hab Hbc.
  - rewrite Qle_bool_iff in *. eapply Qle_trans; eassumption.
  - apply Is_true_true. apply Is_true_true in Hab, Hbc.
    exact (transitivity (R := String.le) Hab Hbc).
  - apply Is_true_true. apply Is_true_true in Hab, Hbc.
    exact (transitivity (R := String.le) Hab Hbc).
  - apply Z.leb_le. apply Z.leb_le in Hab, Hbc. lia.
Qed.

Lemma parse_literal (p : string) :
  is_literal_pattern p = true ->
  parse p = Some (Lit <$> list_ascii_of_string p).
Proof.
  induction p as [| c p IH]; simpl; [reflexivity |].
  intros Hlit. apply andb_true_iff in Hlit as [Hc Hp].
  rewrite (IH Hp). unfold parse_atom.
  destruct (Ascii.eqb_spec c "."%char) as [-> | _]; [discriminate Hc |].
  apply negb_true_iff in Hc. rewrite Hc. reflexivity.
Qed.

Lemma match_here_literal (p s : string) :
  match_here true (Lit <$> list_ascii_of_string p) s
  = str_is_prefix (str_lower p) (str_lower s).
Proof.
  revert s. induction p as [| c p IH]; intros [| x s]; simpl; try reflexivity.
  rewrite IH. reflexivity.
Qed.

Lemma search_literal (p s : string) :
  search true (Lit <$> list_ascii_of_string p) s
  = str_contains (str_lower p) (str_lower s).
Proof.
  induction s as [| x s IH].
  - simpl. rewrite match_here_literal. reflexivity.
  - cbn [search str_lower str_contains]. rewrite match_here_literal, IH. reflexivity.
Qed.

Lemma compile_literal (p : string) :
  is_literal_pattern p = true ->
  exists f, compile p "i" = Ok f
            /\ forall s, f s = str_contains (str_lower p) (str_lower s).
Proof.
  intros Hlit. unfold compile. rewrite (parse_literal p Hlit).
  eexists. split; [reflexivity |]. intros s. apply search_literal.
Qed.

#[export] Instance platform : Platform Q := {|
  py_int := inject_Z;
  py_sum := sum;
  py_truediv := truediv;
  py_round := round;
  py_str := str;
  py_str_oid := fun _ => eq_refl;
  bson_leb := leb;
  bson_leb_total := leb_total;
  bson_leb_trans := leb_trans;
  bson_leb_date := fun _ _ => eq_refl;
  fold_case := str_lower;
  regex_compile := compile;
  regex_compile_literal := compile_literal
|}.

End Reference.

(** * The vocabulary of the properties

    The predicates and abbreviations the theorems are stated with: the
    spec's rules in the spec's words, and names for parts of the handlers. *)

Section Vocabulary.
Context {num : Type} `{Platform num}.

Definition adult_message : string := "Adults must be 18+".

Definition parent_message : string :=
  "Provide athlete_age for parent bookings and must be < 18".

(** What [create_booking] does once the age rule has passed. *)
Definition persist_booking (booking : Booking num) : M (World num) string :=
  create_document "booking" (booking_model_dump booking).

(** The age rule of the data model, in the spec's words: an adult booking
    must not carry an age below 18; a parent booking must carry an age, and
    one below 18. *)
Definition violates_age_rule (booking : Booking num) : Prop :=
  (user_type booking = "adult"
   /\ exists age, athlete_age booking = Some age /\ age < 18)
  \/ (user_type booking = "parent"
      /\ (athlete_age booking = None
          \/ exists age, athlete_age booking = Some age /\ 18 <= age)).

Definition invalid_coach_id : Exn := HTTPException 400 "Invalid coach id".

Definition connected_but_error (e : Exn) : string :=
  "⚠️  Connected but Error: " +:+ str_prefix 80 (exn_str e).

(** The next driver call is let through. *)
Definition next_call_ok (d : Database num) : bool :=
  match faults d with
  | Some _ :: _ => false
  | _ => true
  end.

(** The store once a call has used up its entry of the script. *)
Definition after_call (d : Database num) : Database num :=
  set_faults (tail (faults d)) d.

(** The documents of a collection as a request finds them. *)
Definition docs_of (w : World num) (name : string) : list (Doc num) :=
  match db w with
  | Some d => coll d name
  | None => []
  end.

(** The document [create_review] hands to the store. *)
Definition review_data (review : Review num) (w : World num) : Doc num :=
  setdefault "created_at" (VDate (utcnow w)) (review_model_dump review).

(** A review references a coach by the string under its coach_id. *)
Definition references (coach_id : string) (r : Doc num) : bool :=
  field_has (is_str coach_id) (r !! "coach_id").

Definition has_id (oid : ObjectId) (c : Doc num) : bool :=
  field_has (is_oid oid) (c !! "_id").

(** A review is about the coach with identifier [oid] when its coach_id is a
    spelling of that identifier.  This is how [create_review] itself finds the
    coach of a review, [ObjectId(review.coach_id)], which reads the hex digits
    in either letter case. *)
Definition names_coach (oid : ObjectId) (r : Doc num) : bool :=
  match r !! "coach_id" with
  | Some (VStr s) =>
      match ObjectId_of_str s with
      | Ok o => bool_decide (o = oid)
      | Raise _ => false
      end
  | _ => false
  end.

(** The rating of a review, a missing one counted as 0. *)
Definition rating_or_zero (r : Doc num) : num :=
  match r !! "rating" with
  | Some (VNum n) => n
  | _ => py_int 0
  end.

Definition rating_is_numeric (r : Doc num) : Prop :=
  r !! "rating" = None \/ exists n, r !! "rating" = Some (VNum n).

(** [mean(r1..rN)], in the spec's words. *)
Definition mean_rating (reviews : list (Doc num)) : num :=
  py_truediv (py_sum (rating_or_zero <$> reviews))
             (py_int (Z.of_nat (length reviews))).

(** Every item is at least as new as the items after it, in the store's
    order on the created_at values. *)
Definition newest_first (items : list (Doc num)) : Prop :=
  StronglySorted
    (fun a b => bson_leb (sort_key "created_at" b) (sort_key "created_at" a) = true)
    items.




(** What both list endpoints do for their collection. *)
Definition listing (name coach_id : string) : M (World num) (list (Doc num)) :=
  items <~ with_db (find name [Field "coach_id" (CEqStr coach_id)]
                      (Some ("created_at", -1)) None);;
  ret (rename_id <$> items).

(** The field is a string that contains [text], letter case apart (or a list
    with such a string). *)
Definition contains_ci (text field : string) (c : Doc num) : bool :=
  field_has (is_match (ci_contains text)) (c !! field).

(** The field is the tag, or a list holding it. *)
Definition has_tag (tag field : string) (c : Doc num) : bool :=
  field_has (is_str tag) (c !! field).

(** The search filter in the spec's words: the conjunction of an exact match
    on the sport tag, substring matches on city and state, and a substring
    match of [q] on the name or the bio, each only when given. *)
Definition spec_matches (query : CoachQuery) (c : Doc num) : bool :=
  (if truthy (sport query) then has_tag (default "" (sport query)) "sports" c else true)
  && (if truthy (city query)
      then contains_ci (default "" (city query)) "location_city" c else true)
  && (if truthy (state query)
      then contains_ci (default "" (state query)) "location_state" c else true)
  && (if truthy (q query)
      then contains_ci (default "" (q query)) "full_name" c
           || contains_ci (default "" (q query)) "bio" c
      else true).

(** A text that is given is free of pattern syntax. *)
Definition plain_if_given (text : option string) : Prop :=
  truthy text = true -> is_literal_pattern (default "" text) = true.

(** [filt] compiles to a predicate that agrees with [P]. *)
Definition compiles_to (filt : Filter) (P : Doc num -> bool) : Prop :=
  exists p, compile_filter filt = Ok p /\ forall doc, p doc = P doc.

Definition clause_compiles_to (c : Clause) (P : Doc num -> bool) : Prop :=
  exists p, compile_clause c = Ok p /\ forall doc, p doc = P doc.

End Vocabulary.

Section StoreVocabulary.
Context {num : Type} `{Platform num}.

(** A computation that leaves every collection as it found it, however it
    ends. *)
Definition keeps_store {A} (m : M (World num) A) : Prop :=
  forall w r w', m w = (r, w') -> forall name, docs_of w' name = docs_of w name.

(** Two versions of a document that differ at most in the two aggregates. *)
Definition same_but_aggregates (old new : Doc num) : Prop :=
  forall key, key <> "average_rating" -> key <> "review_count" ->
    new !! key = old !! key.

(** The store handle is there and its next call meets the fault [e]. *)
Definition next_call_fails (w : World num) (e : Exn) : Prop :=
  exists d fs, db w = Some d /\ faults d = Some e :: fs.

(** The store handle is there and its next call goes through. *)
Definition reachable (w : World num) : Prop :=
  exists d, db w = Some d /\ next_call_ok d = true.

(** What subscripting or calling through a missing handle raises. *)
Definition not_subscriptable : Exn :=
  TypeError "'NoneType' object is not subscriptable".

(** A search text that is given and that the store's engine rejects as a
    pattern. *)
Definition rejected_if_given (text : option string) : Prop :=
  truthy text = true /\ is_ok (regex_compile (default "" text) "i") = false.

(** A search text that is given and that the store's engine rejects with
    the error [e]. *)
Definition rejected_with (text : option string) (e : Exn) : Prop :=
  truthy text = true /\ regex_compile (default "" text) "i" = Raise e.

(** The identifier the store would hand out next is not in use in the
    collection. *)
Definition next_id_is_free (d : Database num) (name : string) : Prop :=
  existsb (has_id (fresh_oid (next_id d))) (coll d name) = false.

(** The decidable form of [rating_is_numeric]. *)
Definition rating_is_numericb (r : Doc num) : bool :=
  match r !! "rating" with
  | None | Some (VNum _) => true
  | Some _ => false
  end.

End StoreVocabulary.

(** * A sample store

    One coach with stale aggregates, one review of her, no bookings. *)
Module Sample.

Import QArith.
Local Open Scope Z_scope.
Definition ann_id : string := "65f0c0ffee0123456789abcd".

Definition ann : Doc Q :=
  {[ "_id" := VOid (Oid ann_id);
     "full_name" := VStr "Ann Lee";
     "bio" := VStr "Tennis and squash";
     "sports" := VList [VStr "tennis"; VStr "squash"];
     "location_city" := VStr "Austin";
     "location_state" := VStr "TX";
     "average_rating" := VNum (5 # 1)%Q;
     "review_count" := VNum (7 # 1)%Q ]}.

Definition old_review : Doc Q :=
  {[ "_id" := VOid (Oid "65f0c0ffee0123456789abce");
     "coach_id" := VStr ann_id;
     "rating" := VNum (4 # 1)%Q;
     "created_at" := VDate 100 ]}.

Definition store : Database Q :=
  mkDatabase (Some "marketplace")
    {[ "coach" := [ann]; "review" := [old_review] ]} 0 [].

Definition world : World Q :=
  mkWorld (Some store) (Some "mongodb://localhost") 200.

Definition new_review : Review Q :=
  mkReview ann_id {[ "rating" := VNum (5 # 1)%Q; "text" := VStr "Great" ]}.

(** A review whose coach_id is no identifier. *)
Definition stray_review : Review Q :=
  mkReview "nobody" {[ "rating" := VNum (3 # 1)%Q ]}.

(** A well-formed identifier that no coach has. *)
Definition absent_id : string := "65f0c0ffee0123456789abcf".

Definition dot_query : CoachQuery := mkCoachQuery None (Some ".") None None.

Definition plain_query : CoachQuery :=
  mkCoachQuery (Some "tennis") (Some "aus") None (Some "SQUASH").

(** The fields of a response item, for reading results. *)
Definition fields_of (r : Result (list (Doc Q))) (key : string)
    : Result (list (option (Value Q))) :=
  match r with
  | Ok items => Ok ((fun item : Doc Q => item !! key) <$> items)
  | Raise e => Raise e
  end.

(** What a store that cannot be reached raises. *)
Definition store_down : Exn := PyMongoError "connection refused".

(** The same store, with its next call failing. *)
Definition failing_world : World Q :=
  mkWorld (Some (mkDatabase (Some "marketplace")
                   {[ "coach" := [ann]; "review" := [old_review] ]} 0
                   [Some store_down]))
          None 200.

(** No store was configured. *)
Definition unconfigured_world : World Q := mkWorld None None 200.

Definition bo : Coach Q :=
  mkCoach {[ "full_name" := VStr "Bo Kim"; "location_city" := VStr "Boston" ]}.

Definition child_booking : Booking Q :=
  mkBooking "parent" (Some 12) {[ "coach_id" := VStr ann_id ]}.

(** An unbalanced parenthesis is no regular expression. *)
Definition paren_query : CoachQuery := mkCoachQuery None (Some "(") None None.

(** A review whose rating is [None]. *)
Definition unrated_review : Review Q :=
  mkReview ann_id {[ "rating" := VNone ]}.

Definition ann_id_upper : string := "65F0C0FFEE0123456789ABCD".

(** A review of Ann that spells her identifier in upper-case hex. *)
Definition shouted_review : Review Q :=
  mkReview ann_id_upper {[ "rating" := VNum (1 # 1)%Q ]}.

(** A second coach, and a store with several reviews and bookings, kept in
    no order of time. *)
Definition cy_id : string := "65f0c0ffee0123456789abc0".

Definition review_at (n : string) (coach_id : string) (t : Z) : Doc Q :=
  {[ "_id" := VOid (Oid ("aaaaaaaaaaaaaaaaaaaaaaa" +:+ n));
     "coach_id" := VStr coach_id;
     "rating" := VNum (3 # 1)%Q;
     "created_at" := VDate t ]}.

Definition booking_at (n : string) (coach_id : string) (t : Z) : Doc Q :=
  {[ "_id" := VOid (Oid ("bbbbbbbbbbbbbbbbbbbbbbb" +:+ n));
     "coach_id" := VStr coach_id;
     "user_type" := VStr "adult";
     "created_at" := VDate t ]}.

Definition busy_store : Database Q :=
  mkDatabase (Some "marketplace")
    {[ "coach" := [ann];
       "review" := [ review_at "1" ann_id 100; review_at "2" cy_id 250;
                     review_at "3" ann_id 300; review_at "4" ann_id 200 ];
       "booking" := [ booking_at "1" ann_id 50; booking_at "2" cy_id 60;
                      booking_at "3" ann_id 70 ] ]} 0 [].

Definition busy_world : World Q :=
  mkWorld (Some busy_store) (Some "mongodb://localhost") 400.

End Sample.

(** * Properties *)

Section Properties.
Context {num : Type} `{Platform num}.

(** ** The monad *)

Lemma bind_ret_r {S A} (m : M S A) (s : S) : bind m ret s = m s.
Proof. unfold bind, ret. destruct (m s) as [[a | e] s']; reflexivity. Qed.

Lemma bind_ok {S A B} (m : M S A) (k : A -> M S B) (s s' : S) (a : A) :
  m s = (Ok a, s') -> bind m k s = k a s'.
Proof. intros Hm. unfold bind. rewrite Hm. reflexivity. Qed.

Lemma bind_raise {S A B} (m : M S A) (k : A -> M S B) (s s' : S) (e : Exn) :
  m s = (Raise e, s') -> bind m k s = (Raise e, s').
Proof. intros Hm. unfold bind. rewrite Hm. reflexivity. Qed.

(** A [try] whose handler cannot raise cannot raise, whatever its body does. *)
Lemma try_except_total {S A} (body : M S A) (handler : Exn -> M S A) :
  (forall e s, is_ok (fst (handler e s)) = true) ->
  forall s, is_ok (fst (try_except body handler s)) = true.
Proof.
  intros Hh s. unfold try_except.
  destruct (body s) as [[a | e] s']; [reflexivity | apply Hh].
Qed.

(** ** Bookings *)

Lemma create_booking_passes (booking : Booking num) (w : World num) :
  check_age_rule booking w = (Ok tt, w) ->
  create_booking booking w = persist_booking booking w.
Proof.
  intros Hc. unfold create_booking. rewrite (bind_ok _ _ _ _ _ Hc).
  apply bind_ret_r.
Qed.

Lemma create_booking_rejects (booking : Booking num) (w : World num) (e : Exn) :
  check_age_rule booking w = (Raise e, w) ->
  create_booking booking w = (Raise e, w).
Proof. intros Hc. unfold create_booking. apply bind_raise. exact Hc. Qed.

(** C2.  The five bookings of the validation table: adult/17 is rejected with
    400, adult/25 and parent/12 go on to be persisted, parent without an age
    and parent/20 are rejected with 400.  A rejection leaves the world as it
    was. *)
Theorem booking_validation_table (fields : Doc num) (w : World num) :
  create_booking (mkBooking "adult" (Some 17) fields) w
    = (Raise (HTTPException 400 adult_message), w)
  /\ create_booking (mkBooking "adult" (Some 25) fields) w
    = persist_booking (mkBooking "adult" (Some 25) fields) w
  /\ create_booking (mkBooking "parent" (Some 12) fields) w
    = persist_booking (mkBooking "parent" (Some 12) fields) w
  /\ create_booking (mkBooking "parent" None fields) w
    = (Raise (HTTPException 400 parent_message), w)
  /\ create_booking (mkBooking "parent" (Some 20) fields) w
    = (Raise (HTTPException 400 parent_message), w).
Proof.
  repeat split;
    first [ apply create_booking_rejects; reflexivity
          | apply create_booking_passes; reflexivity ].
Qed.

(** C5.  A booking that violates the age rule is answered with a 400 whose
    detail is one of the two messages, and the world, the store in it
    included, is exactly what it was: nothing was persisted. *)
Theorem violation_rejected_before_persistence (booking : Booking num) (w : World num) :
  violates_age_rule booking ->
  exists detail,
    create_booking booking w = (Raise (HTTPException 400 detail), w)
    /\ (detail = adult_message \/ detail = parent_message)
    /\ (0 < str_len detail)%nat.
Proof.
  intros [[Hu (age & Ha & Hlt)] | [Hu Hage]].
  - exists adult_message. split; [| split; [left; reflexivity | cbv; lia]].
    apply create_booking_rejects. unfold check_age_rule. rewrite Hu, Ha. simpl.
    destruct (Z.ltb_spec age 18); [reflexivity | lia].
  - exists parent_message. split; [| split; [right; reflexivity | cbv; lia]].
    apply create_booking_rejects. unfold check_age_rule. rewrite Hu. simpl.
    destruct Hage as [-> | (age & -> & Hge)]; [reflexivity |].
    destruct (Z.leb_spec 18 age); [reflexivity | lia].
Qed.

(** C10.  Any [user_type] other than exactly "adult" is held to the parent
    rule: the booking goes on to be persisted when an age below 18 is given
    and is rejected with 400 otherwise; an adult booking without an age goes
    on to be persisted. *)
Theorem non_adult_held_to_parent_rule (booking : Booking num) (w : World num) :
  user_type booking <> "adult" ->
  (forall age, athlete_age booking = Some age -> age < 18 ->
     create_booking booking w = persist_booking booking w)
  /\ (forall age, athlete_age booking = Some age -> 18 <= age ->
     create_booking booking w = (Raise (HTTPException 400 parent_message), w))
  /\ (athlete_age booking = None ->
     create_booking booking w = (Raise (HTTPException 400 parent_message), w))
  /\ create_booking (mkBooking "adult" None (booking_fields booking)) w
     = persist_booking (mkBooking "adult" None (booking_fields booking)) w.
Proof.
  intros Hu. apply String.eqb_neq in Hu.
  repeat split.
  - intros age Ha Hlt. apply create_booking_passes.
    unfold check_age_rule. rewrite Hu, Ha.
    destruct (Z.leb_spec 18 age); [lia | reflexivity].
  - intros age Ha Hge. apply create_booking_rejects.
    unfold check_age_rule. rewrite Hu, Ha.
    destruct (Z.leb_spec 18 age); [reflexivity | lia].
  - intros Ha. apply create_booking_rejects.
    unfold check_age_rule. rewrite Hu, Ha. reflexivity.
  - apply create_booking_passes. reflexivity.
Qed.

(** ** Coach lookup *)

(** Whatever the identifier and the store, [get_coach] returns a document or
    raises the 400 of its [except] clause: the 404 raised inside the [try] is
    an [Exception] too, and is replaced like any other. *)
Lemma get_coach_outcomes (coach_id : string) (w : World num) :
  (exists doc, fst (get_coach coach_id w) = Ok doc)
  \/ fst (get_coach coach_id w) = Raise invalid_coach_id.
Proof.
  unfold get_coach, try_except.
  match goal with |- context [match ?b w with _ => _ end] => destruct (b w) as [[doc | e] w'] end.
  - left. exists doc. reflexivity.
  - right. reflexivity.
Qed.

(** A malformed identifier is answered with 400. *)
Lemma get_coach_malformed (coach_id : string) (w : World num) :
  oid_is_valid coach_id = false ->
  fst (get_coach coach_id w) = Raise invalid_coach_id.
Proof.
  intros Hbad. unfold get_coach, try_except, bind, db_getitem, lift, ObjectId_of_str.
  rewrite Hbad. destruct (db w); reflexivity.
Qed.

(** ** Diagnostics *)

Lemma str_prefix_len (n : nat) (s : string) : (str_len (str_prefix n s) <= n)%nat.
Proof.
  revert n. induction s as [| c s IH]; intros n; simpl; [lia |].
  destruct (is_continuation c) eqn:Hc; simpl.
  - rewrite Hc. apply IH.
  - destruct n as [| n]; simpl; [lia |]. rewrite Hc. specialize (IH n). lia.
Qed.

(** The body of [test_database] is one [try] whose handler only writes to
    [response]: no exception of any step inside it gets past the handler. *)
Lemma test_database_body_total (frame : Doc num * World num) :
  is_ok (fst (test_database_body frame)) = true.
Proof.
  unfold test_database_body. apply try_except_total.
  intros e [response w]. reflexivity.
Qed.

(** C9.  [test_database] returns a response in every world; it never raises,
    so no HTTP error status leaves the endpoint.  The response lists at most
    10 collection names.  Its status is one of the fixed strings or, when the
    driver call fails with [e], the prefix "Connected but Error" followed by
    the first 80 characters of [str(e)]. *)
Theorem test_database_never_fails (w : World num) :
  exists response w',
    test_database w = (Ok response, w')
    /\ (exists names, response !! "collections" = Some (VList (VStr <$> names))
                      /\ (length names <= 10)%nat)
    /\ (exists status, response !! "database" = Some (VStr status)
          /\ (status = "⚠️  Available but not initialized"
              \/ status = "✅ Connected & Working"
              \/ exists e, status = connected_but_error e))
    /\ (forall d e fs, db w = Some d -> faults d = Some e :: fs ->
          response !! "database" = Some (VStr (connected_but_error e)))
    /\ (forall e, (str_len (str_prefix 80 (exn_str e)) <= 80)%nat).
Proof.
  unfold test_database, test_database_body, set_response, in_world, with_db,
    list_collection_names, driver_call, zoom, try_except, modify, bind, get, ret.
  cbn [snd fst].
  destruct (db w) as [d |] eqn:Hdb; cbn [snd fst].
  - rewrite Hdb. destruct (faults d) as [| [e |] fs] eqn:Hf; cbn [snd fst].
    + eexists _, _. split; [reflexivity |]. split; [| split; [| split]].
      * eexists. split; [reflexivity |]. rewrite length_take. lia.
      * eexists. split; [reflexivity |]. right. left. reflexivity.
      * intros d' e fs [= <-]. rewrite Hf. discriminate.
      * intros e. apply str_prefix_len.
    + eexists _, _. split; [reflexivity |]. split; [| split; [| split]].
      * exists []. split; [reflexivity | simpl; lia].
      * eexists. split; [reflexivity |]. right. right. exists e. reflexivity.
      * intros d' e' fs' [= <-]. rewrite Hf. intros [= <- _]. reflexivity.
      * intros e'. apply str_prefix_len.
    + eexists _, _. split; [reflexivity |]. split; [| split; [| split]].
      * eexists. split; [reflexivity |]. rewrite length_take. lia.
      * eexists. split; [reflexivity |]. right. left. reflexivity.
      * intros d' e fs' [= <-]. rewrite Hf. discriminate.
      * intros e. apply str_prefix_len.
  - eexists _, _. split; [reflexivity |]. split; [| split; [| split]].
    + exists []. split; [reflexivity | simpl; lia].
    + eexists. split; [reflexivity |]. left. reflexivity.
    + intros d e fs Hd. discriminate Hd.
    + intros e. apply str_prefix_len.
Qed.

(** ** The store *)

Lemma driver_call_ok (d : Database num) :
  next_call_ok d = true -> driver_call d = (Ok tt, after_call d).
Proof.
  unfold next_call_ok, driver_call, after_call.
  destruct d as [nm cs nx [| [e |] fs]]; simpl; intros Hok;
    [reflexivity | discriminate | reflexivity].
Qed.

Lemma driver_call_collections (d d' : Database num) (r : Result unit) :
  driver_call d = (r, d') -> collections d' = collections d.
Proof.
  unfold driver_call. destruct (faults d) as [| [e |] fs]; intros [= <- <-]; reflexivity.
Qed.

Lemma coll_insert_eq (d : Database num) (name : string) (l : list (Doc num)) :
  coll (set_collections <[name := l]> d) name = l.
Proof. unfold coll. simpl. rewrite lookup_insert_eq. reflexivity. Qed.

Lemma coll_insert_ne (d : Database num) (name other : string) (l : list (Doc num)) :
  name <> other -> coll (set_collections <[name := l]> d) other = coll d other.
Proof. intros Hne. unfold coll. simpl. rewrite lookup_insert_ne by exact Hne. reflexivity. Qed.

Lemma find_run (name : string) (filt : Filter) (sort : option (string * Z))
    (limit : option nat) (p : Doc num -> bool) (d : Database num) :
  next_call_ok d = true ->
  compile_filter filt = Ok p ->
  find name filt sort limit d
  = (Ok (let docs := List.filter p (coll d name) in
         let docs := match sort with
                     | Some (field, direction) => sort_by (precedes field direction) docs
                     | None => docs
                     end in
         match limit with Some n => take n docs | None => docs end),
     after_call d).
Proof.
  intros Hok Hp. unfold find, bind. rewrite (driver_call_ok d Hok).
  unfold lift. rewrite Hp. reflexivity.
Qed.

Lemma find_collections (name : string) (filt : Filter) (sort : option (string * Z))
    (limit : option nat) (d d' : Database num) (r : Result (list (Doc num))) :
  find name filt sort limit d = (r, d') -> collections d' = collections d.
Proof.
  unfold find, bind, lift, get, ret.
  destruct (driver_call d) as [[[] | e] d1] eqn:Hc.
  - apply driver_call_collections in Hc.
    destruct (compile_filter filt); intros [= <- <-]; exact Hc.
  - apply driver_call_collections in Hc. intros [= <- <-]. exact Hc.
Qed.

Lemma update_one_run (name : string) (filt : Filter) (fields : Doc num)
    (p : Doc num -> bool) (d : Database num) :
  next_call_ok d = true ->
  compile_filter filt = Ok p ->
  update_one name filt fields d
  = (Ok tt,
     if existsb p (coll d name)
     then set_collections
            <[name := update_first p (fun doc => fields ∪ doc) (coll d name)]>
            (after_call d)
     else after_call d).
Proof.
  intros Hok Hp. unfold update_one, bind. rewrite (driver_call_ok d Hok).
  unfold lift. rewrite Hp. reflexivity.
Qed.

(** [update_one] writes to its own collection only, and to none when it
    raises. *)
Lemma update_one_collections (name : string) (filt : Filter) (fields : Doc num)
    (d d' : Database num) (r : Result unit) :
  update_one name filt fields d = (r, d') ->
  (forall other, name <> other -> coll d' other = coll d other)
  /\ (is_ok r = false -> collections d' = collections d).
Proof.
  unfold update_one, bind, lift, modify.
  destruct (driver_call d) as [[[] | e] d1] eqn:Hc;
    apply driver_call_collections in Hc.
  - destruct (compile_filter filt) as [p | e].
    + intros [= <- <-]. split; [| discriminate].
      intros other Hne. destruct (existsb p (coll d1 name)).
      * rewrite coll_insert_ne by exact Hne. unfold coll. rewrite Hc. reflexivity.
      * unfold coll. rewrite Hc. reflexivity.
    + intros [= <- <-]. split; [| intros _; exact Hc].
      intros other _. unfold coll. rewrite Hc. reflexivity.
  - intros [= <- <-]. split; [| intros _; exact Hc].
    intros other _. unfold coll. rewrite Hc. reflexivity.
Qed.

Lemma insert_one_run (name : string) (data : Doc num) (d : Database num) :
  next_call_ok d = true ->
  exists doc d',
    insert_one name data d = (Ok (default VNone (doc !! "_id")), d')
    /\ coll d' name = (coll d name ++ [doc])%list
    /\ (forall other, name <> other -> coll d' other = coll d other)
    /\ faults d' = tail (faults d)
    /\ is_Some (doc !! "_id")
    /\ (forall key, key <> "_id" -> doc !! key = data !! key).
Proof.
  intros Hok. unfold insert_one, bind. rewrite (driver_call_ok d Hok).
  unfold get, modify, ret.
  destruct (data !! "_id") as [id |] eqn:Hid.
  - eexists data, _. split; [reflexivity |].
    split; [rewrite coll_insert_eq; reflexivity |].
    split; [intros other Hne; rewrite coll_insert_ne by exact Hne; reflexivity |].
    split; [reflexivity |]. split; [rewrite Hid; eauto | reflexivity].
  - eexists (<["_id" := VOid (fresh_oid (next_id (after_call d)))]> data), _.
    split; [reflexivity |].
    split; [rewrite coll_insert_eq; reflexivity |].
    split; [intros other Hne; rewrite coll_insert_ne by exact Hne; reflexivity |].
    split; [reflexivity |].
    split; [rewrite lookup_insert_eq; eauto |].
    intros key Hne. rewrite lookup_insert_ne by congruence. reflexivity.
Qed.

(** ** Reviews *)

Lemma with_db_run {A} (m : M (Database num) A) (w : World num) (d : Database num) :
  db w = Some d ->
  with_db m w = (fst (m d), set_db (Some (snd (m d))) w).
Proof. intros Hdb. unfold with_db. rewrite Hdb. destruct (m d). reflexivity. Qed.

Lemma create_document_run (name : string) (data : Doc num) (w : World num)
    (d : Database num) :
  db w = Some d ->
  next_call_ok d = true ->
  exists doc d',
    create_document name data w
    = (Ok (py_str (default VNone (doc !! "_id"))), set_db (Some d') w)
    /\ coll d' name = (coll d name ++ [doc])%list
    /\ (forall other, name <> other -> coll d' other = coll d other)
    /\ faults d' = tail (faults d)
    /\ is_Some (doc !! "_id")
    /\ (forall key, key <> "_id" -> doc !! key = data !! key).
Proof.
  intros Hdb Hok.
  destruct (insert_one_run name data d Hok) as (doc & d' & Hrun & Hrest).
  exists doc, d'. split; [| exact Hrest].
  unfold create_document. rewrite Hdb. unfold bind.
  rewrite (with_db_run _ w d Hdb), Hrun. reflexivity.
Qed.

(** The aggregate update writes to the coach collection only. *)
Lemma aggregates_keep_others (review : Review num) (w w' : World num)
    (r : Result unit) (name : string) :
  update_coach_aggregates review w = (r, w') ->
  name <> "coach" ->
  docs_of w' name = docs_of w name.
Proof.
  unfold update_coach_aggregates, bind, lift. intros Hrun Hne.
  destruct (ObjectId_of_str (review_coach_id review)) as [oid | e];
    [| injection Hrun as <- <-; reflexivity].
  destruct (db w) as [d |] eqn:Hdb;
    [| unfold with_db in Hrun; rewrite Hdb in Hrun; injection Hrun as <- <-; reflexivity].
  rewrite (with_db_run _ w d Hdb) in Hrun.
  destruct (find _ _ _ _ d) as [rs d1] eqn:Hfind. cbn [fst snd] in Hrun.
  apply find_collections in Hfind.
  assert (Hw1 : docs_of (set_db (Some d1) w) name = docs_of w name).
  { unfold docs_of. rewrite Hdb. simpl. unfold coll. rewrite Hfind. reflexivity. }
  destruct rs as [[| r0 rs] | e]; try (injection Hrun as <- <-; exact Hw1).
  destruct (summands (r0 :: rs)) as [ratings | e];
    [| injection Hrun as <- <-; exact Hw1].
  rewrite (with_db_run _ (set_db (Some d1) w) d1 eq_refl) in Hrun.
  destruct (update_one _ _ _ d1) as [r2 d2] eqn:Hupd. cbn [fst snd] in Hrun.
  apply update_one_collections in Hupd as [Hother _].
  injection Hrun as <- <-. unfold docs_of. simpl.
  rewrite (Hother name) by congruence.
  unfold docs_of in Hw1. rewrite Hdb in *. exact Hw1.
Qed.

(** An aggregate update that raises has written nothing. *)
Lemma aggregates_raise_keeps_store (review : Review num) (w w' : World num)
    (e : Exn) (name : string) :
  update_coach_aggregates review w = (Raise e, w') ->
  docs_of w' name = docs_of w name.
Proof.
  unfold update_coach_aggregates, bind, lift. intros Hrun.
  destruct (ObjectId_of_str (review_coach_id review)) as [oid | e0];
    [| injection Hrun as _ <-; reflexivity].
  destruct (db w) as [d |] eqn:Hdb;
    [| unfold with_db in Hrun; rewrite Hdb in Hrun; injection Hrun as _ <-; reflexivity].
  rewrite (with_db_run _ w d Hdb) in Hrun.
  destruct (find _ _ _ _ d) as [rs d1] eqn:Hfind. cbn [fst snd] in Hrun.
  apply find_collections in Hfind.
  assert (Hw1 : docs_of (set_db (Some d1) w) name = docs_of w name).
  { unfold docs_of. rewrite Hdb. simpl. unfold coll. rewrite Hfind. reflexivity. }
  destruct rs as [[| r0 rs] | e0]; try (injection Hrun as _ <-; exact Hw1).
  destruct (summands (r0 :: rs)) as [ratings | e0];
    [| injection Hrun as _ <-; exact Hw1].
  rewrite (with_db_run _ (set_db (Some d1) w) d1 eq_refl) in Hrun.
  destruct (update_one _ _ _ d1) as [r2 d2] eqn:Hupd. cbn [fst snd] in Hrun.
  apply update_one_collections in Hupd as [_ Hsame].
  injection Hrun as -> <-. specialize (Hsame eq_refl).
  unfold docs_of in *. simpl. rewrite Hdb in *. simpl in Hw1.
  unfold coll in *. rewrite Hsame. exact Hw1.
Qed.

Lemma create_review_run (review : Review num) (w w1 : World num) (review_id : string) :
  create_document "review" (review_data review w) w = (Ok review_id, w1) ->
  create_review review w
  = (Ok review_id, snd (update_coach_aggregates review w1)).
Proof.
  intros Hdoc. unfold create_review, bind, get. fold (review_data review w).
  rewrite Hdoc. unfold try_except, ret.
  destruct (update_coach_aggregates review w1) as [[[] | e] w2]; reflexivity.
Qed.

(** C4.  Once the review is persisted, [create_review] returns its id
    whatever the aggregate update does.  With a coach_id that is no
    well-formed identifier the update is skipped before it touches the store;
    when the update raises, for whatever reason, no collection has changed. *)
Theorem review_survives_aggregate_failure (review : Review num) (w w1 : World num)
    (review_id : string) :
  create_document "review" (review_data review w) w = (Ok review_id, w1) ->
  exists w2,
    create_review review w = (Ok review_id, w2)
    /\ (oid_is_valid (review_coach_id review) = false -> w2 = w1)
    /\ (forall e w', update_coach_aggregates review w1 = (Raise e, w') ->
          w2 = w' /\ forall name, docs_of w2 name = docs_of w1 name).
Proof.
  intros Hdoc. exists (snd (update_coach_aggregates review w1)).
  split; [apply create_review_run; exact Hdoc |]. split.
  - intros Hbad. unfold update_coach_aggregates, bind, lift, ObjectId_of_str.
    rewrite Hbad. reflexivity.
  - intros e w' Hrun. rewrite Hrun. split; [reflexivity |].
    intros name. eapply aggregates_raise_keeps_store. exact Hrun.
Qed.

(** C8.  When the dumped review carries no created_at, the document that is
    persisted carries the current time under that key, next to the dumped
    fields; this holds whatever the aggregate update does afterwards. *)
Theorem review_stamped_with_current_time (review : Review num) (w : World num)
    (d : Database num) :
  review_fields review !! "created_at" = None ->
  db w = Some d ->
  next_call_ok d = true ->
  exists review_id w' doc,
    create_review review w = (Ok review_id, w')
    /\ docs_of w' "review" = (docs_of w "review" ++ [doc])%list
    /\ doc !! "created_at" = Some (VDate (utcnow w))
    /\ (forall key, key <> "_id" -> key <> "created_at" ->
          doc !! key = review_model_dump review !! key).
Proof.
  intros Habsent Hdb Hok.
  destruct (create_document_run "review" (review_data review w) w d Hdb Hok)
    as (doc & d1 & Hdoc & Hcoll & _ & _ & _ & Hkeys).
  assert (Hdata : review_data review w
                  = <["created_at" := VDate (utcnow w)]> (review_model_dump review)).
  { unfold review_data, setdefault, review_model_dump.
    rewrite lookup_insert_ne by discriminate. rewrite Habsent. reflexivity. }
  eexists _, _, doc. split; [apply create_review_run; exact Hdoc |].
  split; [| split].
  - destruct (update_coach_aggregates review (set_db (Some d1) w)) as [r w2] eqn:Hagg.
    cbn [snd]. rewrite (aggregates_keep_others _ _ _ _ "review" Hagg) by discriminate.
    unfold docs_of. rewrite Hdb. simpl. exact Hcoll.
  - rewrite Hkeys by discriminate. rewrite Hdata. apply lookup_insert_eq.
  - intros key Hid Hcreated. rewrite Hkeys by exact Hid. rewrite Hdata.
    apply lookup_insert_ne. congruence.
Qed.

(** A created_at the caller supplied is kept as it is, [None] included. *)
Lemma review_keeps_supplied_created_at (review : Review num) (w : World num)
    (v : Value num) :
  review_fields review !! "created_at" = Some v ->
  review_data review w = review_model_dump review.
Proof.
  intros Hgiven. unfold review_data, setdefault, review_model_dump.
  rewrite lookup_insert_ne by discriminate. rewrite Hgiven. reflexivity.
Qed.

(** *** The coach aggregates *)

Lemma compile_filter_str (name value : string) :
  compile_filter [Field name (CEqStr value)]
  = Ok (fun doc : Doc num => field_has (is_str value) (doc !! name) && true && true).
Proof. reflexivity. Qed.

Lemma compile_filter_oid (name : string) (oid : ObjectId) :
  compile_filter [Field name (CEqOid oid)]
  = Ok (fun doc : Doc num => field_has (is_oid oid) (doc !! name) && true && true).
Proof. reflexivity. Qed.

Lemma filter_references (coach_id : string) (l : list (Doc num)) :
  List.filter (fun doc => field_has (is_str coach_id) (doc !! "coach_id") && true && true) l
  = List.filter (references coach_id) l.
Proof.
  apply List.filter_ext. intros doc. unfold references.
  rewrite !andb_true_r. reflexivity.
Qed.

Lemma summands_numeric (rs : list (Doc num)) :
  Forall rating_is_numeric rs -> summands rs = Ok (rating_or_zero <$> rs).
Proof.
  induction 1 as [| r rs Hr _ IH]; [reflexivity |].
  simpl. rewrite IH. unfold rating_summand, rating_or_zero.
  destruct Hr as [-> | [n ->]]; reflexivity.
Qed.

Lemma update_first_ext {A} (p p' : A -> bool) (f : A -> A) (l : list A) :
  (forall x, p x = p' x) -> update_first p f l = update_first p' f l.
Proof.
  intros Hext. induction l as [| x l IH]; simpl; [reflexivity |].
  rewrite Hext, IH. reflexivity.
Qed.

Lemma existsb_same {A} (p p' : A -> bool) (l : list A) :
  (forall x, p x = p' x) -> existsb p l = existsb p' l.
Proof.
  intros Hext. induction l as [| x l IH]; simpl; [reflexivity |].
  rewrite Hext, IH. reflexivity.
Qed.

Lemma find_update_first {A} (p : A -> bool) (f : A -> A) (l : list A) :
  (forall x, p x = true -> p (f x) = true) ->
  existsb p l = true ->
  exists x, List.find p l = Some x /\ List.find p (update_first p f l) = Some (f x).
Proof.
  intros Hf. induction l as [| y l IH]; simpl; [discriminate |].
  destruct (p y) eqn:Hy; simpl.
  - intros _. exists y. split; [reflexivity |]. rewrite (Hf y Hy). reflexivity.
  - intros Hex. destruct (IH Hex) as (x & Hx & Hx'). exists x. rewrite Hy. auto.
Qed.

(** A review with a string coach_id references a coach_id text exactly when
    the two strings are the same, character for character. *)
Lemma references_text (coach_id s : string) (r : Doc num) :
  r !! "coach_id" = Some (VStr s) ->
  references coach_id r = bool_decide (coach_id = s).
Proof. intros Hs. unfold references. rewrite Hs. reflexivity. Qed.

(** C3, as the code has it.  After a review is created for an existing
    coach, the coach document found under the review's coach_id carries
    average_rating = round(mean(r1..rN), 2) and review_count = N, where
    r1..rN are the ratings of the stored reviews whose coach_id is the text
    of the request's coach_id, character for character (a missing rating
    counted as 0), the new review included.  Reviews of the same coach that
    are stored under another spelling of her identifier are not among them.
    The values are computed from the stored reviews alone, whatever the
    coach document held before. *)
Theorem review_recomputes_coach_aggregates (review : Review num) (w : World num)
    (d : Database num) (oid : ObjectId) :
  db w = Some d ->
  faults d = [] ->
  ObjectId_of_str (review_coach_id review) = Ok oid ->
  existsb (has_id oid) (coll d "coach") = true ->
  exists review_id w',
    create_review review w = (Ok review_id, w')
    /\ let reviews :=
         List.filter (references (review_coach_id review)) (docs_of w' "review") in
       Forall rating_is_numeric reviews ->
       exists coach,
         List.find (has_id oid) (docs_of w' "coach") = Some coach
         /\ coach !! "average_rating" = Some (VNum (py_round (mean_rating reviews) 2))
         /\ coach !! "review_count"
            = Some (VNum (py_int (Z.of_nat (length reviews)))).
Proof.
  intros Hdb Hquiet Hoid Hcoach.
  assert (Hok : next_call_ok d = true) by (unfold next_call_ok; rewrite Hquiet; reflexivity).
  destruct (create_document_run "review" (review_data review w) w d Hdb Hok)
    as (doc & d1 & Hdoc & Hreviews & Hothers & Hfaults & _ & Hkeys).
  rewrite Hquiet in Hfaults. simpl in Hfaults.
  assert (Hok1 : next_call_ok d1 = true) by (unfold next_call_ok; rewrite Hfaults; reflexivity).
  eexists _, _. split; [apply create_review_run; exact Hdoc |].
  (* the run of the aggregate update *)
  unfold update_coach_aggregates, bind, lift. rewrite Hoid.
  rewrite (with_db_run _ (set_db (Some d1) w) d1 eq_refl).
  rewrite (find_run _ _ _ _ _ d1 Hok1 (compile_filter_str _ _)).
  cbn [fst snd]. rewrite filter_references.
  set (reviews := List.filter (references (review_coach_id review)) (coll d1 "review")).
  assert (Hnew : references (review_coach_id review) doc = true).
  { unfold references. rewrite Hkeys by discriminate.
    unfold review_data, setdefault, review_model_dump.
    destruct (_ !! "created_at");
      [| rewrite lookup_insert_ne by discriminate];
      rewrite lookup_insert_eq; simpl; apply bool_decide_eq_true; reflexivity. }
  assert (Hnonempty : reviews <> []).
  { subst reviews. rewrite Hreviews, List.filter_app. simpl. rewrite Hnew.
    intros Happ. apply app_eq_nil in Happ as [_ Hnil]. discriminate Hnil. }
  destruct reviews as [| r0 rs] eqn:Hrs; [congruence |]. rewrite <- Hrs in *.
  destruct (summands reviews) as [ratings | e] eqn:Hsum.
  - (* the update is written *)
    assert (Hok2 : next_call_ok (after_call d1) = true).
    { unfold next_call_ok, after_call. simpl. rewrite Hfaults. reflexivity. }
    rewrite (with_db_run _ (set_db (Some (after_call d1)) w) (after_call d1) eq_refl).
    rewrite (update_one_run _ _ _ _ (after_call d1) Hok2 (compile_filter_oid _ _)).
    assert (Hcoaches : coll (after_call d1) "coach" = coll d "coach").
    { change (coll (after_call d1) "coach") with (coll d1 "coach").
      apply Hothers. discriminate. }
    rewrite Hcoaches.
    rewrite (existsb_same _ (has_id oid)), Hcoach
      by (intros c; unfold has_id; rewrite !andb_true_r; reflexivity).
    cbn [fst snd]. unfold docs_of. cbn [db set_db].
    rewrite coll_insert_eq, coll_insert_ne by discriminate.
    change (coll (after_call (after_call d1)) "review") with (coll d1 "review").
    fold reviews. intros Hnumeric.
    rewrite (summands_numeric _ Hnumeric) in Hsum. injection Hsum as <-.
    rewrite (update_first_ext _ (has_id oid))
      by (intros c; unfold has_id; rewrite !andb_true_r; reflexivity).
    match goal with
    | |- context [update_first _ ?f _] =>
        destruct (find_update_first (has_id oid) f (coll d "coach")) as (c & _ & Hc)
    end.
    + intros c Hid. unfold has_id in *.
      rewrite lookup_union_r; [exact Hid |].
      rewrite lookup_insert_ne by discriminate.
      apply lookup_singleton_ne. discriminate.
    + exact Hcoach.
    + eexists. split; [exact Hc |]. split.
      * erewrite lookup_union_Some_l; [reflexivity |]. apply lookup_insert_eq.
      * erewrite lookup_union_Some_l; [reflexivity |].
        rewrite lookup_insert_ne by discriminate. apply lookup_singleton_eq.
  - (* a rating that is no number: excluded by the premise *)
    cbn [fst snd]. unfold docs_of. cbn [db set_db].
    change (coll (after_call d1) "review") with (coll d1 "review").
    fold reviews. intros Hnumeric.
    rewrite (summands_numeric _ Hnumeric) in Hsum. discriminate Hsum.
Qed.

(** ** The list endpoints *)

Section Sorting.
Context {A : Type} (le : A -> A -> bool).
Hypothesis le_total : forall a b, le a b = true \/ le b a = true.
Hypothesis le_trans : forall a b c, le a b = true -> le b c = true -> le a c = true.

Lemma insert_sorted_perm (x : A) (l : list A) :
  Permutation (insert_sorted le x l) (x :: l).
Proof.
  induction l as [| y l IH]; simpl; [reflexivity |].
  destruct (le x y); [reflexivity |].
  rewrite IH. apply perm_swap.
Qed.

Lemma sort_by_perm (l : list A) : Permutation (sort_by le l) l.
Proof.
  induction l as [| x l IH]; simpl; [reflexivity |].
  rewrite insert_sorted_perm. apply perm_skip. exact IH.
Qed.

Lemma insert_sorted_sorted (x : A) (l : list A) :
  StronglySorted (fun a b => le a b = true) l ->
  StronglySorted (fun a b => le a b = true) (insert_sorted le x l).
Proof.
  induction 1 as [| y l Hsorted IH Hy]; simpl.
  - repeat constructor.
  - destruct (le x y) eqn:Hxy.
    + constructor; [constructor; assumption |].
      constructor; [exact Hxy |].
      eapply Forall_impl; [exact Hy |]. intros z Hyz. simpl in Hyz.
      eapply le_trans; eassumption.
    + constructor; [exact IH |].
      eapply Permutation_Forall; [symmetry; apply insert_sorted_perm |].
      constructor; [| exact Hy].
      destruct (le_total x y) as [Hle | Hle]; [congruence | exact Hle].
Qed.

Lemma sort_by_sorted (l : list A) :
  StronglySorted (fun a b => le a b = true) (sort_by le l).
Proof.
  induction l as [| x l IH]; simpl; [constructor |].
  apply insert_sorted_sorted. exact IH.
Qed.

End Sorting.

Lemma rename_id_lookup (c : Doc num) :
  rename_id c !! "_id" = None
  /\ rename_id c !! "id" = Some (VStr (py_str (dict_get "_id" c)))
  /\ forall key, key <> "_id" -> key <> "id" -> rename_id c !! key = c !! key.
Proof.
  unfold rename_id. split; [apply lookup_delete_eq |]. split.
  - rewrite lookup_delete_ne by discriminate. apply lookup_insert_eq.
  - intros key Hid Hid'. rewrite lookup_delete_ne by congruence.
    apply lookup_insert_ne. congruence.
Qed.

(** A stored identifier is renamed to its 24 hex digits. *)
Lemma rename_id_oid (c : Doc num) (oid : ObjectId) :
  c !! "_id" = Some (VOid oid) ->
  rename_id c !! "id" = Some (VStr (oid_str oid)).
Proof.
  intros Hid. destruct (rename_id_lookup c) as (_ & -> & _).
  unfold dict_get. rewrite Hid. simpl. rewrite py_str_oid. reflexivity.
Qed.

Lemma rename_id_sort_key (c : Doc num) :
  sort_key "created_at" (rename_id c) = sort_key "created_at" c.
Proof.
  unfold sort_key. destruct (rename_id_lookup c) as (_ & _ & ->);
    [reflexivity | discriminate | discriminate].
Qed.

Lemma newest_first_rename (docs : list (Doc num)) :
  newest_first docs -> newest_first (rename_id <$> docs).
Proof.
  unfold newest_first. induction 1 as [| c docs Hsorted IH Hc]; simpl; constructor.
  - exact IH.
  - apply Forall_fmap. eapply Forall_impl; [exact Hc |].
    intros b Hb. simpl in *. rewrite !rename_id_sort_key. exact Hb.
Qed.

(** Between two dated items, the earlier in the list is the later in time. *)
Lemma newest_first_dates (a b : Doc num) (items : list (Doc num)) (s t : Z) :
  newest_first (a :: items) ->
  In b items ->
  a !! "created_at" = Some (VDate s) ->
  b !! "created_at" = Some (VDate t) ->
  t <= s.
Proof.
  intros Hsorted Hin Ha Hb. apply StronglySorted_inv in Hsorted as [_ Hall].
  rewrite List.Forall_forall in Hall. specialize (Hall b Hin).
  unfold sort_key in Hall. rewrite Ha, Hb in Hall. simpl in Hall.
  rewrite bson_leb_date in Hall. apply Z.leb_le. exact Hall.
Qed.

Lemma listing_run (name coach_id : string) (w : World num) (d : Database num) :
  db w = Some d ->
  next_call_ok d = true ->
  exists items w',
    listing name coach_id w = (Ok items, w')
    /\ Permutation items
         (rename_id <$> List.filter (references coach_id) (docs_of w name))
    /\ newest_first items
    /\ Forall (fun item => item !! "_id" = None /\ is_Some (item !! "id")) items.
Proof.
  intros Hdb Hok. unfold listing, bind.
  rewrite (with_db_run _ w d Hdb).
  rewrite (find_run _ _ _ _ _ d Hok (compile_filter_str _ _)).
  cbn [fst snd]. rewrite filter_references.
  eexists _, _. split; [reflexivity |]. split; [| split].
  - unfold docs_of. rewrite Hdb. apply Permutation_map. apply sort_by_perm.
  - apply newest_first_rename. unfold newest_first.
    apply (sort_by_sorted (precedes "created_at" (-1))).
    + intros a b. unfold precedes. simpl. apply bson_leb_total.
    + intros a b c. unfold precedes. simpl. intros Hab Hbc.
      eapply bson_leb_trans; eassumption.
  - apply Forall_fmap. apply List.Forall_forall. intros c _. simpl.
    destruct (rename_id_lookup c) as (Hid & Hid' & _). rewrite Hid, Hid'. eauto.
Qed.








(** ** Coach search *)

Lemma compiles_snoc (filt : Filter) (c : Clause) (P Q : Doc num -> bool) :
  compiles_to filt P ->
  clause_compiles_to c Q ->
  compiles_to (filt ++ [c])%list (fun doc => P doc && Q doc).
Proof.
  intros (p & Hp & HP) (q0 & Hq & HQ). revert p P Hp HP. unfold compiles_to.
  induction filt as [| c0 filt IH]; intros p P Hp HP.
  - cbn [app compile_filter]. rewrite Hq. eexists. split; [reflexivity |].
    intros doc. cbn beta. injection Hp as <-. rewrite <- HP, HQ, andb_true_r. reflexivity.
  - cbn [app compile_filter] in *.
    destruct (compile_clause c0) as [p0 | e]; [| discriminate].
    destruct (compile_filter filt) as [p1 | e] eqn:Hp1; [| discriminate].
    destruct (IH p1 p1 eq_refl (fun _ => eq_refl)) as (r & -> & Hr).
    eexists. split; [reflexivity |]. intros doc. simpl.
    injection Hp as <-. rewrite <- HP, Hr, andb_assoc. reflexivity.
Qed.

Lemma compiles_add_clause (cond : bool) (c : Clause) (filt : Filter)
    (P Q : Doc num -> bool) :
  compiles_to filt P ->
  (cond = true -> clause_compiles_to c Q) ->
  compiles_to (add_clause cond c filt)
    (fun doc => P doc && (if cond then Q doc else true)).
Proof.
  intros HP HQ. unfold add_clause. destruct cond.
  - apply compiles_snoc; auto.
  - destruct HP as (p & Hp & HP). exists p. split; [exact Hp |].
    intros doc. rewrite andb_true_r. apply HP.
Qed.

Lemma field_has_ext (f g : Value num -> bool) (v : option (Value num)) :
  (forall x, f x = g x) -> field_has f v = field_has g v.
Proof.
  intros Hext. destruct v as [[] |]; simpl; try apply Hext; [| reflexivity].
  rewrite Hext. f_equal. apply existsb_same. exact Hext.
Qed.

Lemma regex_field_compiles (name text : string) :
  is_literal_pattern text = true ->
  exists p, compile_cond (CRegex text "i") = Ok p
            /\ forall c : Doc num, p (c !! name) = contains_ci text name c.
Proof.
  intros Hplain. destruct (regex_compile_literal text Hplain) as (f & Hf & Hsub).
  simpl. rewrite Hf. eexists. split; [reflexivity |].
  intros c. unfold contains_ci. apply field_has_ext.
  intros [] ; simpl; try reflexivity. apply Hsub.
Qed.

Lemma regex_clause_compiles (name text : string) :
  is_literal_pattern text = true ->
  clause_compiles_to (Field name (CRegex text "i")) (contains_ci text name).
Proof.
  intros Hplain. destruct (regex_field_compiles name text Hplain) as (p & Hp & Hsub).
  unfold clause_compiles_to. cbn [compile_clause compile_fields]. rewrite Hp.
  eexists. split; [reflexivity |]. intros c. simpl. rewrite andb_true_r. apply Hsub.
Qed.

Lemma regex_or_compiles (name1 name2 text : string) :
  is_literal_pattern text = true ->
  clause_compiles_to
    (Or [ [(name1, CRegex text "i")]; [(name2, CRegex text "i")] ])
    (fun c => contains_ci text name1 c || contains_ci text name2 c).
Proof.
  intros Hplain.
  destruct (regex_field_compiles name1 text Hplain) as (p1 & Hp1 & Hsub1).
  destruct (regex_field_compiles name2 text Hplain) as (p2 & Hp2 & Hsub2).
  unfold clause_compiles_to.
  cbn [compile_clause compile_alternatives compile_fields].
  rewrite Hp1. rewrite Hp1 in Hp2. injection Hp2 as <-.
  eexists. split; [reflexivity |]. intros c. simpl.
  rewrite !andb_true_r, orb_false_r, Hsub1, Hsub2. reflexivity.
Qed.

Lemma tag_clause_compiles (name tag : string) :
  clause_compiles_to (Field name (CEqStr tag)) (has_tag tag name).
Proof.
  eexists. split; [reflexivity |]. intros c. simpl. apply andb_true_r.
Qed.

Lemma search_filter_compiles (query : CoachQuery) :
  plain_if_given (city query) ->
  plain_if_given (state query) ->
  plain_if_given (q query) ->
  compiles_to (search_filter query) (spec_matches query).
Proof.
  intros Hcity Hstate Hq. unfold search_filter.
  pose proof (compiles_add_clause (truthy (q query)) _ _ _ _
    (compiles_add_clause (truthy (state query)) _ _ _ _
      (compiles_add_clause (truthy (city query)) _ _ _ _
        (compiles_add_clause (truthy (sport query)) _ [] (fun _ => true) _
          (ex_intro _ _ (conj eq_refl (fun _ => eq_refl)))
          (fun _ => tag_clause_compiles "sports" (default "" (sport query))))
        (fun Hg => regex_clause_compiles "location_city" _ (Hcity Hg)))
      (fun Hg => regex_clause_compiles "location_state" _ (Hstate Hg)))
    (fun Hg => regex_or_compiles "full_name" "bio" _ (Hq Hg))) as (p & Hp & HP).
  exists p. split; [exact Hp |]. intros c. rewrite HP. reflexivity.
Qed.

(** C6, amended.  With the store reachable and the given city, state and q
    texts free of pattern syntax, the search returns the first 50 coaches, in
    store-native order, that pass the conjunction of the spec: the sport tag
    matched exactly, city and state as case-insensitive substrings, q as a
    case-insensitive substring of the name or of the bio, each only when it
    is given (not empty).  Every item has lost "_id" and gained "id".  With
    nothing given, the first 50 coaches come back. *)
Theorem search_coaches_plain_texts (query : CoachQuery) (w : World num)
    (d : Database num) :
  db w = Some d ->
  next_call_ok d = true ->
  plain_if_given (city query) ->
  plain_if_given (state query) ->
  plain_if_given (q query) ->
  exists items w',
    search_coaches query w = (Ok items, w')
    /\ items = rename_id <$> take 50 (List.filter (spec_matches query) (docs_of w "coach"))
    /\ (length items <= 50)%nat
    /\ Forall (fun item => item !! "_id" = None /\ is_Some (item !! "id")) items
    /\ (truthy (sport query) = false -> truthy (city query) = false ->
        truthy (state query) = false -> truthy (q query) = false ->
        items = rename_id <$> take 50 (docs_of w "coach")).
Proof.
  intros Hdb Hok Hcity Hstate Hq.
  destruct (search_filter_compiles query Hcity Hstate Hq) as (p & Hp & HP).
  unfold search_coaches, bind, get_documents. rewrite Hdb.
  rewrite (with_db_run _ w d Hdb).
  rewrite (find_run _ _ _ _ _ d Hok Hp). cbn [fst snd].
  rewrite (List.filter_ext _ _ HP).
  eexists _, _. split; [reflexivity |].
  unfold docs_of. rewrite Hdb.
  split; [reflexivity |]. split; [| split].
  - rewrite length_fmap, length_take. lia.
  - apply Forall_fmap. apply List.Forall_forall. intros c _. simpl.
    destruct (rename_id_lookup c) as (Hid & Hid' & _). rewrite Hid, Hid'. eauto.
  - intros Hs Hc Hst Hqq. f_equal. f_equal.
    rewrite (List.filter_ext (spec_matches query) (fun _ => true)).
    + apply List.filter_true.
    + intros c. unfold spec_matches. rewrite Hs, Hc, Hst, Hqq. reflexivity.
Qed.

(** Whatever the texts, the search returns at most 50 items when it returns. *)
Lemma search_coaches_at_most_50 (query : CoachQuery) (w w' : World num)
    (items : list (Doc num)) :
  search_coaches query w = (Ok items, w') -> (length items <= 50)%nat.
Proof.
  unfold search_coaches, bind, get_documents, with_db.
  destruct (db w) as [d |]; [| discriminate].
  unfold find, bind, lift, get, ret.
  destruct (driver_call d) as [[[] | e] d1]; [| discriminate].
  destruct (compile_filter (search_filter query)) as [p | e]; [| discriminate].
  intros [= <- _]. rewrite length_fmap, length_take. lia.
Qed.

End Properties.

(** * Further properties of the handlers *)

Section MoreProperties.
Context {num : Type} `{Platform num}.

(** ** What the reading endpoints leave alone *)

Lemma keeps_ret {A} (a : A) : keeps_store (num := num) (ret a).
Proof. intros w r w' [= <- <-] name. reflexivity. Qed.

Lemma keeps_raise {A} (e : Exn) : keeps_store (@raise (World num) A e).
Proof. intros w r w' [= <- <-] name. reflexivity. Qed.

Lemma keeps_lift {A} (r : Result A) : keeps_store (num := num) (lift r).
Proof. intros w r' w' [= <- <-] name. reflexivity. Qed.

Lemma keeps_bind {A B} (m : M (World num) A) (k : A -> M (World num) B) :
  keeps_store m -> (forall a, keeps_store (k a)) -> keeps_store (bind m k).
Proof.
  intros Hm Hk w r w' Hrun name. unfold bind in Hrun.
  destruct (m w) as [[a | e] w1] eqn:Hm1.
  - rewrite (Hk a _ _ _ Hrun). apply (Hm _ _ _ Hm1).
  - injection Hrun as <- <-. apply (Hm _ _ _ Hm1).
Qed.

Lemma keeps_try_except {A} (m : M (World num) A) (h : Exn -> M (World num) A) :
  keeps_store m -> (forall e, keeps_store (h e)) -> keeps_store (try_except m h).
Proof.
  intros Hm Hh w r w' Hrun name. unfold try_except in Hrun.
  destruct (m w) as [[a | e] w1] eqn:Hm1.
  - injection Hrun as <- <-. apply (Hm _ _ _ Hm1).
  - rewrite (Hh e _ _ _ Hrun). apply (Hm _ _ _ Hm1).
Qed.

Lemma keeps_with_db {A} (m : M (Database num) A) :
  (forall d r d', m d = (r, d') -> collections d' = collections d) ->
  keeps_store (with_db m).
Proof.
  intros Hm w r w' Hrun name. unfold with_db in Hrun.
  destruct (db w) as [d |] eqn:Hdb; [| injection Hrun as <- <-; reflexivity].
  destruct (m d) as [r1 d1] eqn:Hm1. injection Hrun as <- <-.
  unfold docs_of. rewrite Hdb. simpl. unfold coll.
  rewrite (Hm _ _ _ Hm1). reflexivity.
Qed.

Lemma keeps_db_getitem : keeps_store (num := num) db_getitem.
Proof.
  intros w r w' Hrun name. unfold db_getitem in Hrun.
  destruct (db w); injection Hrun as <- <-; reflexivity.
Qed.

Lemma find_one_collections (name : string) (filt : Filter) (d d' : Database num)
    (r : Result (option (Doc num))) :
  find_one name filt d = (r, d') -> collections d' = collections d.
Proof.
  unfold find_one, bind, lift, get, ret.
  destruct (driver_call d) as [[[] | e] d1] eqn:Hc;
    apply driver_call_collections in Hc.
  - destruct (compile_filter filt); intros [= <- <-]; exact Hc.
  - intros [= <- <-]. exact Hc.
Qed.

Lemma list_collection_names_collections (d d' : Database num)
    (r : Result (list string)) :
  list_collection_names d = (r, d') -> collections d' = collections d.
Proof.
  unfold list_collection_names, bind, get, ret.
  destruct (driver_call d) as [[[] | e] d1] eqn:Hc;
    apply driver_call_collections in Hc; intros [= <- <-]; exact Hc.
Qed.

Lemma keeps_get_documents (name : string) (filt : Filter) (limit : option nat) :
  keeps_store (num := num) (get_documents name filt limit).
Proof.
  intros w r w' Hrun. unfold get_documents in Hrun.
  destruct (db w) as [d0 |] eqn:Hdb.
  - revert Hrun. apply keeps_with_db. intros d r1 d'. apply find_collections.
  - injection Hrun as <- <-. reflexivity.
Qed.

Lemma keeps_listing (name coach_id : string) :
  keeps_store (num := num) (listing name coach_id).
Proof.
  apply keeps_bind; [| intros items; apply keeps_ret].
  apply keeps_with_db. intros d r d'. apply find_collections.
Qed.

Lemma keeps_test_database : keeps_store (num := num) test_database.
Proof.
  intros w r w'.
  unfold test_database, test_database_body, set_response, in_world, with_db,
    list_collection_names, driver_call, zoom, try_except, modify, bind, get, ret.
  cbn [snd fst].
  destruct (db w) as [d |] eqn:Hdb; cbn [snd fst].
  - rewrite Hdb. destruct (faults d) as [| [e |] fs]; cbn [snd fst];
      intros [= <- <-] name; unfold docs_of; simpl; rewrite Hdb; reflexivity.
  - intros [= <- <-] name. reflexivity.
Qed.

(** X1.  The five reading endpoints, [get_coach], [search_coaches], the two
    list endpoints and [test_database], leave every collection exactly as
    they found it, whether they return or raise and whatever the store does:
    renaming "_id" to "id" happens on the response only. *)
Theorem reading_endpoints_keep_store (coach_id : string) (query : CoachQuery) :
  keeps_store (num := num) (get_coach coach_id)
  /\ keeps_store (num := num) (search_coaches query)
  /\ keeps_store (num := num) (list_reviews coach_id)
  /\ keeps_store (num := num) (list_bookings_for_coach coach_id)
  /\ keeps_store (num := num) test_database.
Proof.
  split; [| split; [| split; [| split]]].
  - apply keeps_try_except; [| intros e; apply keeps_raise].
    apply keeps_bind; [apply keeps_db_getitem | intros _].
    apply keeps_bind; [apply keeps_lift | intros oid].
    apply keeps_bind.
    + apply keeps_with_db. intros d r d'. apply find_one_collections.
    + intros [doc |]; [| apply keeps_raise].
      destruct (bool_decide (doc = ∅)); [apply keeps_raise |].
      destruct (doc !! "_id"); [apply keeps_ret | apply keeps_raise].
  - apply keeps_bind; [apply keeps_get_documents | intros items; apply keeps_ret].
  - exact (keeps_listing "review" coach_id).
  - exact (keeps_listing "booking" coach_id).
  - exact keeps_test_database.
Qed.

(** ** Coach lookup, all outcomes *)

Lemma find_one_run_ok (name : string) (filt : Filter) (p : Doc num -> bool)
    (d : Database num) :
  next_call_ok d = true ->
  compile_filter filt = Ok p ->
  find_one name filt d = (Ok (List.find p (coll d name)), after_call d).
Proof.
  intros Hok Hp. unfold find_one, bind. rewrite (driver_call_ok d Hok).
  unfold lift. rewrite Hp. reflexivity.
Qed.


Lemma find_same {A} (p p' : A -> bool) (l : list A) :
  (forall x, p x = p' x) -> List.find p l = List.find p' l.
Proof.
  intros Hext. induction l as [| x l IH]; simpl; [reflexivity |].
  rewrite Hext, IH. reflexivity.
Qed.

Lemma find_existsb_false {A} (p : A -> bool) (l : list A) :
  existsb p l = false -> List.find p l = None.
Proof.
  induction l as [| x l IH]; simpl; [reflexivity |].
  destruct (p x); simpl; [discriminate | exact IH].
Qed.

Lemma has_id_filter (oid : ObjectId) (doc : Doc num) :
  field_has (is_oid oid) (doc !! "_id") && true && true = has_id oid doc.
Proof. unfold has_id. rewrite !andb_true_r. reflexivity. Qed.

(** The lookup of [get_coach] once the handle and the identifier are there. *)
Lemma get_coach_lookup (coach_id : string) (w : World num) (d : Database num)
    (oid : ObjectId) :
  db w = Some d ->
  next_call_ok d = true ->
  ObjectId_of_str coach_id = Ok oid ->
  fst (get_coach coach_id w)
  = match List.find (has_id oid) (coll d "coach") with
    | Some doc =>
        if bool_decide (doc = ∅) then Raise invalid_coach_id
        else match doc !! "_id" with
             | Some id => Ok (delete "_id" (<["id" := VStr (py_str id)]> doc))
             | None => Raise invalid_coach_id
             end
    | None => Raise invalid_coach_id
    end.
Proof.
  intros Hdb Hok Hoid.
  unfold get_coach, try_except, bind, db_getitem, lift. rewrite Hdb, Hoid.
  rewrite (with_db_run _ w d Hdb).
  rewrite (find_one_run_ok _ _ _ d Hok (compile_filter_oid _ _)). cbn [fst snd].
  rewrite (find_same _ (has_id oid)) by (intros doc; apply has_id_filter).
  destruct (List.find (has_id oid) (coll d "coach")) as [doc |]; [| reflexivity].
  destruct (bool_decide (doc = ∅)); [reflexivity |].
  destruct (doc !! "_id"); reflexivity.
Qed.

(** X2.  Every failure of [get_coach] reaches the client as the same 400
    "Invalid coach id": a malformed identifier, a missing store handle, a
    store call that fails, and a well-formed identifier that no coach has.
    No other error, and no 404, leaves the handler. *)
Theorem get_coach_every_failure_is_400 (coach_id : string) (w : World num) :
  (forall e, fst (get_coach coach_id w) = Raise e -> e = invalid_coach_id)
  /\ (oid_is_valid coach_id = false ->
      fst (get_coach coach_id w) = Raise invalid_coach_id)
  /\ (db w = None -> fst (get_coach coach_id w) = Raise invalid_coach_id)
  /\ (forall e, next_call_fails w e ->
      fst (get_coach coach_id w) = Raise invalid_coach_id)
  /\ (forall d oid, db w = Some d -> next_call_ok d = true ->
      ObjectId_of_str coach_id = Ok oid ->
      existsb (has_id oid) (coll d "coach") = false ->
      fst (get_coach coach_id w) = Raise invalid_coach_id).
Proof.
  split; [| split; [| split; [| split]]].
  - intros e He. destruct (get_coach_outcomes coach_id w) as [[doc Hdoc] | Hraise];
      congruence.
  - apply get_coach_malformed.
  - intros Hdb. unfold get_coach, try_except, bind, db_getitem. rewrite Hdb. reflexivity.
  - intros e (d & fs & Hdb & Hf).
    unfold get_coach, try_except, bind, db_getitem, lift. rewrite Hdb.
    destruct (ObjectId_of_str coach_id) as [oid | e0]; [| reflexivity].
    rewrite (with_db_run _ w d Hdb).
    unfold find_one, bind, driver_call. rewrite Hf. reflexivity.
  - intros d oid Hdb Hok Hoid Habsent.
    rewrite (get_coach_lookup coach_id w d oid Hdb Hok Hoid).
    rewrite (find_existsb_false _ _ Habsent). reflexivity.
Qed.

Lemma get_coach_found (coach_id : string) (w : World num) (d : Database num)
    (oid : ObjectId) (doc : Doc num) :
  db w = Some d ->
  next_call_ok d = true ->
  ObjectId_of_str coach_id = Ok oid ->
  List.find (has_id oid) (coll d "coach") = Some doc ->
  fst (get_coach coach_id w) = Ok (rename_id doc).
Proof.
  intros Hdb Hok Hoid Hfind.
  rewrite (get_coach_lookup coach_id w d _ Hdb Hok Hoid), Hfind.
  apply List.find_some in Hfind as [_ Hid]. unfold has_id in Hid.
  destruct (doc !! "_id") as [id |] eqn:Hlookup; [| discriminate Hid].
  destruct (bool_decide (doc = ∅)) eqn:Hempty.
  - apply bool_decide_eq_true in Hempty. subst doc.
    rewrite lookup_empty in Hlookup. discriminate Hlookup.
  - unfold rename_id, dict_get. rewrite Hlookup. reflexivity.
Qed.

(** X3.  With the store reachable and a well-formed identifier, [get_coach]
    returns the first coach stored under that identifier, its "_id" replaced
    by "id".  An identifier given in upper case finds the coach all the same,
    and the "id" of the answer is its lower-case form. *)
Theorem get_coach_returns_stored_coach (coach_id : string) (w : World num)
    (d : Database num) (doc : Doc num) :
  db w = Some d ->
  next_call_ok d = true ->
  oid_is_valid coach_id = true ->
  List.find (has_id (Oid (str_lower coach_id))) (coll d "coach") = Some doc ->
  fst (get_coach coach_id w) = Ok (rename_id doc)
  /\ (doc !! "_id" = Some (VOid (Oid (str_lower coach_id))) ->
      rename_id doc !! "id" = Some (VStr (str_lower coach_id))).
Proof.
  intros Hdb Hok Hvalid Hfind.
  assert (Hoid : ObjectId_of_str coach_id = Ok (Oid (str_lower coach_id)))
    by (unfold ObjectId_of_str; rewrite Hvalid; reflexivity).
  split.
  - exact (get_coach_found coach_id w d _ doc Hdb Hok Hoid Hfind).
  - intros Hid. rewrite (rename_id_oid doc _ Hid). reflexivity.
Qed.

(** ** When the store fails or is missing *)

(** X4.  A store call that fails surfaces unchanged from the endpoints that
    have no [try]: both list endpoints and the search raise the store's own
    exception. *)
Theorem store_failure_surfaces_from_reads (coach_id : string) (query : CoachQuery)
    (w : World num) (e : Exn) :
  next_call_fails w e ->
  fst (list_reviews coach_id w) = Raise e
  /\ fst (list_bookings_for_coach coach_id w) = Raise e
  /\ fst (search_coaches query w) = Raise e.
Proof.
  intros (d & fs & Hdb & Hf). repeat split.
  - unfold list_reviews, bind. rewrite (with_db_run _ w d Hdb).
    unfold find, bind, driver_call. rewrite Hf. reflexivity.
  - unfold list_bookings_for_coach, bind. rewrite (with_db_run _ w d Hdb).
    unfold find, bind, driver_call. rewrite Hf. reflexivity.
  - unfold search_coaches, bind, get_documents. rewrite Hdb.
    rewrite (with_db_run _ w d Hdb).
    unfold find, bind, driver_call. rewrite Hf. reflexivity.
Qed.

Lemma create_document_fault (name : string) (data : Doc num) (w : World num)
    (d : Database num) (e : Exn) (fs : list (option Exn)) :
  db w = Some d ->
  faults d = Some e :: fs ->
  create_document name data w = (Raise e, set_db (Some (set_faults fs d)) w).
Proof.
  intros Hdb Hf. unfold create_document, bind. rewrite Hdb.
  rewrite (with_db_run _ w d Hdb).
  unfold insert_one, bind, driver_call. rewrite Hf. reflexivity.
Qed.

(** X5.  When the store fails while a new document is being persisted, the
    three creating endpoints raise the store's own exception and no
    collection has changed; [create_review] does not go on to the aggregate
    update. *)
Theorem store_failure_surfaces_from_writes (coach : Coach num) (review : Review num)
    (booking : Booking num) (w : World num) (e : Exn) :
  next_call_fails w e ->
  (fst (create_coach coach w) = Raise e
   /\ forall name, docs_of (snd (create_coach coach w)) name = docs_of w name)
  /\ (fst (create_review review w) = Raise e
      /\ forall name, docs_of (snd (create_review review w)) name = docs_of w name)
  /\ (check_age_rule booking w = (Ok tt, w) ->
      fst (create_booking booking w) = Raise e
      /\ forall name, docs_of (snd (create_booking booking w)) name = docs_of w name).
Proof.
  intros (d & fs & Hdb & Hf).
  assert (Hkept : forall name,
            docs_of (set_db (Some (set_faults fs d)) w) name = docs_of w name).
  { intros name. unfold docs_of. simpl. rewrite Hdb. reflexivity. }
  split; [| split].
  - unfold create_coach, bind.
    rewrite (create_document_fault _ _ w d e fs Hdb Hf). split; [reflexivity | exact Hkept].
  - unfold create_review, bind, get.
    rewrite (create_document_fault _ _ w d e fs Hdb Hf). split; [reflexivity | exact Hkept].
  - intros Hrule. unfold create_booking, bind. rewrite Hrule.
    rewrite (create_document_fault _ _ w d e fs Hdb Hf). split; [reflexivity | exact Hkept].
Qed.

(** X6.  Without a store handle ([db] is [None]) the list endpoints raise the
    [TypeError] of subscripting [None], [get_coach] turns it into its 400, and
    [test_database] answers with the status "Available but not initialized",
    "Not Connected" and no collection names, the world untouched. *)
Theorem without_store_handle (coach_id : string) (w : World num) :
  db w = None ->
  list_reviews coach_id w = (Raise not_subscriptable, w)
  /\ list_bookings_for_coach coach_id w = (Raise not_subscriptable, w)
  /\ get_coach coach_id w = (Raise invalid_coach_id, w)
  /\ exists response,
       test_database w = (Ok response, w)
       /\ response !! "database" = Some (VStr "⚠️  Available but not initialized")
       /\ response !! "connection_status" = Some (VStr "Not Connected")
       /\ response !! "collections" = Some (VList [])
       /\ response !! "database_url" = Some VNone
       /\ response !! "database_name" = Some VNone.
Proof.
  intros Hdb. split; [| split; [| split]].
  - unfold list_reviews, bind, with_db. rewrite Hdb. reflexivity.
  - unfold list_bookings_for_coach, bind, with_db. rewrite Hdb. reflexivity.
  - unfold get_coach, try_except, bind, db_getitem. rewrite Hdb. reflexivity.
  - unfold test_database, test_database_body, set_response, try_except, modify,
      bind, get. cbn [snd fst]. rewrite Hdb. cbn [snd fst].
    eexists. split; [reflexivity |]. repeat split; reflexivity.
Qed.

(** ** What creating a review can change *)

Lemma Forall2_same {A} (R : A -> A -> Prop) (l : list A) :
  (forall x, R x x) -> Forall2 R l l.
Proof. intros HR. induction l; constructor; auto. Qed.

Lemma update_first_related {A} (R : A -> A -> Prop) (p : A -> bool) (f : A -> A)
    (l : list A) :
  (forall x, R x x) -> (forall x, R x (f x)) ->
  Forall2 R l (update_first p f l).
Proof.
  intros Hrefl Hf. induction l as [| x l IH]; simpl; [constructor |].
  destruct (p x); constructor; auto. apply Forall2_same. exact Hrefl.
Qed.

Lemma same_but_aggregates_refl (doc : Doc num) : same_but_aggregates doc doc.
Proof. intros key _ _. reflexivity. Qed.

Lemma same_but_aggregates_set (doc : Doc num) (avg count : Value num) :
  same_but_aggregates doc
    ({[ "average_rating" := avg; "review_count" := count ]} ∪ doc).
Proof.
  intros key Havg Hcount. apply lookup_union_r.
  rewrite lookup_insert_ne by congruence. apply lookup_singleton_ne. congruence.
Qed.

Lemma update_one_aggregates (filt : Filter) (avg count : Value num)
    (d d' : Database num) (r : Result unit) :
  update_one "coach" filt {[ "average_rating" := avg; "review_count" := count ]} d
  = (r, d') ->
  Forall2 same_but_aggregates (coll d "coach") (coll d' "coach").
Proof.
  unfold update_one, bind, lift, modify.
  destruct (driver_call d) as [[[] | e] d1] eqn:Hc;
    apply driver_call_collections in Hc.
  - assert (Hd1 : coll d1 "coach" = coll d "coach") by (unfold coll; rewrite Hc; reflexivity).
    destruct (compile_filter filt) as [p | e]; intros [= <- <-].
    + destruct (existsb p (coll d1 "coach")).
      * rewrite coll_insert_eq, Hd1. apply update_first_related.
        -- apply same_but_aggregates_refl.
        -- intros doc. apply same_but_aggregates_set.
      * rewrite Hd1. apply Forall2_same, same_but_aggregates_refl.
    + rewrite Hd1. apply Forall2_same, same_but_aggregates_refl.
  - intros [= <- <-]. unfold coll. rewrite Hc.
    apply Forall2_same, same_but_aggregates_refl.
Qed.

Lemma aggregates_touch_only_aggregates (review : Review num) (w w' : World num)
    (r : Result unit) :
  update_coach_aggregates review w = (r, w') ->
  Forall2 same_but_aggregates (docs_of w "coach") (docs_of w' "coach").
Proof.
  unfold update_coach_aggregates, bind, lift. intros Hrun.
  assert (Hsame : forall w0 : World num,
            Forall2 same_but_aggregates (docs_of w0 "coach") (docs_of w0 "coach"))
    by (intros w0; apply Forall2_same, same_but_aggregates_refl).
  destruct (ObjectId_of_str (review_coach_id review)) as [oid | e];
    [| injection Hrun as <- <-; apply Hsame].
  destruct (db w) as [d |] eqn:Hdb;
    [| unfold with_db in Hrun; rewrite Hdb in Hrun; injection Hrun as <- <-; apply Hsame].
  rewrite (with_db_run _ w d Hdb) in Hrun.
  destruct (find _ _ _ _ d) as [rs d1] eqn:Hfind. cbn [fst snd] in Hrun.
  apply find_collections in Hfind.
  assert (Hw1 : docs_of (set_db (Some d1) w) "coach" = docs_of w "coach").
  { unfold docs_of. rewrite Hdb. simpl. unfold coll. rewrite Hfind. reflexivity. }
  destruct rs as [[| r0 rs] | e];
    try (injection Hrun as <- <-; rewrite Hw1; apply Hsame).
  destruct (summands (r0 :: rs)) as [ratings | e];
    [| injection Hrun as <- <-; rewrite Hw1; apply Hsame].
  rewrite (with_db_run _ (set_db (Some d1) w) d1 eq_refl) in Hrun.
  destruct (update_one _ _ _ d1) as [r2 d2] eqn:Hupd. cbn [fst snd] in Hrun.
  apply update_one_aggregates in Hupd.
  injection Hrun as <- <-. rewrite <- Hw1. unfold docs_of. simpl. exact Hupd.
Qed.

Lemma insert_one_effect (name : string) (data : Doc num) (d d' : Database num)
    (r : Result (Value num)) :
  insert_one name data d = (r, d') ->
  (forall other, name <> other -> coll d' other = coll d other)
  /\ (coll d' name = coll d name
      \/ exists doc, coll d' name = (coll d name ++ [doc])%list).
Proof.
  unfold insert_one, bind, get, modify, ret.
  destruct (driver_call d) as [[[] | e] d1] eqn:Hc;
    apply driver_call_collections in Hc.
  - assert (Hd1 : forall n, coll d1 n = coll d n)
      by (intros n; unfold coll; rewrite Hc; reflexivity).
    destruct (data !! "_id"); intros [= <- <-]; split;
      try (intros other Hne; rewrite coll_insert_ne by exact Hne; apply Hd1);
      right; eexists; rewrite coll_insert_eq; simpl; rewrite <- Hd1; reflexivity.
  - intros [= <- <-]. split; [intros other _ | left]; unfold coll; rewrite Hc; reflexivity.
Qed.

Lemma create_document_effect (name : string) (data : Doc num) (w w' : World num)
    (r : Result string) :
  create_document name data w = (r, w') ->
  (forall other, name <> other -> docs_of w' other = docs_of w other)
  /\ (docs_of w' name = docs_of w name
      \/ exists doc, docs_of w' name = (docs_of w name ++ [doc])%list).
Proof.
  unfold create_document. destruct (db w) as [d |] eqn:Hdb.
  - unfold bind. rewrite (with_db_run _ w d Hdb).
    destruct (insert_one name data d) as [[id | e] d1] eqn:Hins; cbn [fst snd];
      apply insert_one_effect in Hins as [Hother Hname];
      intros [= <- <-]; unfold docs_of; simpl; rewrite Hdb; split; assumption.
  - intros [= <- <-]. split; [reflexivity | left; reflexivity].
Qed.

(** X7.  Whatever the store does, [create_review] changes the stored data in
    three ways at most: it appends one document to the review collection,
    and it rewrites average_rating and review_count of coach documents.  It
    never adds, removes or reorders a coach, never changes another field of
    one, never changes a stored review and never touches another
    collection. *)
Theorem create_review_footprint (review : Review num) (w : World num) :
  let w' := snd (create_review review w) in
  Forall2 same_but_aggregates (docs_of w "coach") (docs_of w' "coach")
  /\ (docs_of w' "review" = docs_of w "review"
      \/ exists doc, docs_of w' "review" = (docs_of w "review" ++ [doc])%list)
  /\ (forall name, name <> "coach" -> name <> "review" ->
        docs_of w' name = docs_of w name).
Proof.
  unfold create_review, bind, get.
  destruct (create_document "review" _ w) as [[review_id | e] w0] eqn:Hdoc;
    apply create_document_effect in Hdoc as [Hother Hreview].
  - unfold try_except, ret.
    destruct (update_coach_aggregates review w0) as [r w1] eqn:Hagg.
    pose proof (aggregates_touch_only_aggregates _ _ _ _ Hagg) as Hcoach.
    pose proof (fun name => aggregates_keep_others _ _ _ _ name Hagg) as Hkeep.
    destruct r as [[] | e]; cbn zeta; cbn [snd]; (split; [| split]).
    all: try (rewrite <- (Hother "coach") by discriminate; exact Hcoach).
    all: try (rewrite (Hkeep "review") by discriminate; exact Hreview).
    all: intros name Hc Hr; rewrite (Hkeep name) by exact Hc;
      apply Hother; congruence.
  - cbn zeta. cbn [snd]. split; [| split].
    + rewrite (Hother "coach") by discriminate.
      apply Forall2_same, same_but_aggregates_refl.
    + exact Hreview.
    + intros name _ Hrev. apply Hother. congruence.
Qed.

(** ** A rating that is no number *)

Lemma rating_is_numericb_false (r : Doc num) :
  rating_is_numericb r = false -> ~ rating_is_numeric r.
Proof.
  unfold rating_is_numericb, rating_is_numeric. intros Hb [Hnone | [n Hn]].
  - rewrite Hnone in Hb. discriminate Hb.
  - rewrite Hn in Hb. discriminate Hb.
Qed.

Lemma Exists_not_numeric (rs : list (Doc num)) :
  existsb (fun r => negb (rating_is_numericb r)) rs = true ->
  Exists (fun r => ~ rating_is_numeric r) rs.
Proof.
  intros Hex. apply existsb_exists in Hex as (r & Hin & Hr).
  apply List.Exists_exists. exists r. split; [exact Hin |].
  apply rating_is_numericb_false. apply negb_true_iff. exact Hr.
Qed.

Lemma summands_not_numeric (rs : list (Doc num)) :
  Exists (fun r => ~ rating_is_numeric r) rs -> is_ok (summands rs) = false.
Proof.
  induction rs as [| r rs IH]; intros Hex; [inversion Hex |].
  cbn [summands]. unfold rating_summand.
  inversion Hex as [? ? Hbad | ? ? Hrest]; subst.
  - unfold rating_is_numeric in Hbad.
    destruct (r !! "rating") as [[] |]; try reflexivity; exfalso; apply Hbad; eauto.
  - specialize (IH Hrest).
    destruct (r !! "rating") as [[] |]; try reflexivity;
      destruct (summands rs); try reflexivity; discriminate IH.
Qed.

Lemma find_result (name : string) (filt : Filter) (p : Doc num -> bool)
    (d d' : Database num) (rs : list (Doc num)) :
  compile_filter filt = Ok p ->
  find name filt None None d = (Ok rs, d') ->
  rs = List.filter p (coll d name).
Proof.
  intros Hp. unfold find, bind, lift, get, ret. rewrite Hp.
  destruct (driver_call d) as [[[] | e] d1] eqn:Hc; [| discriminate].
  apply driver_call_collections in Hc. intros [= <- _].
  unfold coll. rewrite Hc. reflexivity.
Qed.

Lemma aggregates_skipped_on_bad_rating (review : Review num) (w w' : World num)
    (r : Result unit) :
  update_coach_aggregates review w = (r, w') ->
  Exists (fun doc => ~ rating_is_numeric doc)
    (List.filter (references (review_coach_id review)) (docs_of w "review")) ->
  forall name, docs_of w' name = docs_of w name.
Proof.
  intros Hrun Hbad. destruct r as [[] | e];
    [| intros name; exact (aggregates_raise_keeps_store _ _ _ _ name Hrun)].
  exfalso. revert Hrun. unfold update_coach_aggregates, bind, lift.
  destruct (ObjectId_of_str (review_coach_id review)) as [oid | e]; [| discriminate].
  destruct (db w) as [d |] eqn:Hdb; [| unfold with_db; rewrite Hdb; discriminate].
  rewrite (with_db_run _ w d Hdb).
  destruct (find _ _ _ _ d) as [[rs | e] d1] eqn:Hfind; cbn [fst snd]; [| discriminate].
  apply (find_result _ _ _ _ _ _ (compile_filter_str _ _)) in Hfind.
  rewrite filter_references in Hfind. unfold docs_of in Hbad. rewrite Hdb in Hbad.
  rewrite <- Hfind in Hbad. apply summands_not_numeric in Hbad.
  destruct rs as [| r0 rs]; [inversion Hbad |].
  destruct (summands (r0 :: rs)); [discriminate Hbad | discriminate].
Qed.

(** X14.  A stored review whose rating is present but no number (a [None],
    a string) stops the aggregates of its coach: [create_review] for that
    coach still persists the new review and returns its id, but the sum fails
    inside the [try] and no coach document changes. *)
Theorem bad_rating_freezes_aggregates (review : Review num) (w w1 : World num)
    (review_id : string) :
  create_review review w = (Ok review_id, w1) ->
  Exists (fun doc => ~ rating_is_numeric doc)
    (List.filter (references (review_coach_id review)) (docs_of w1 "review")) ->
  forall name, name <> "review" -> docs_of w1 name = docs_of w name.
Proof.
  intros Hrun Hbad name Hname.
  destruct (create_document "review" (review_data review w) w)
    as [[id | e] w0] eqn:Hdoc.
  - rewrite (create_review_run review w w0 id Hdoc) in Hrun.
    destruct (update_coach_aggregates review w0) as [r w2] eqn:Hagg.
    cbn [snd] in Hrun. inversion Hrun; subst.
    apply create_document_effect in Hdoc as [Hother _].
    rewrite <- (Hother name) by congruence.
    apply (aggregates_skipped_on_bad_rating review w0 w1 r Hagg).
    rewrite <- (aggregates_keep_others _ _ _ _ "review" Hagg) by discriminate.
    exact Hbad.
  - unfold create_review, bind, get in Hrun. fold (review_data review w) in Hrun.
    rewrite Hdoc in Hrun. discriminate Hrun.
Qed.

(** ** From creating to listing *)

(** A document that was persisted: the store was there, the call went
    through, and the document sits at the end of its collection. *)
Lemma create_document_ok_inv (name : string) (data : Doc num) (w w1 : World num)
    (id : string) :
  create_document name data w = (Ok id, w1) ->
  exists doc,
    docs_of w1 name = (docs_of w name ++ [doc])%list
    /\ id = py_str (dict_get "_id" doc)
    /\ (forall key, key <> "_id" -> doc !! key = data !! key).
Proof.
  intros Hrun. destruct (db w) as [d |] eqn:Hdb;
    [| unfold create_document in Hrun; rewrite Hdb in Hrun; discriminate Hrun].
  destruct (next_call_ok d) eqn:Hok.
  - destruct (create_document_run name data w d Hdb Hok)
      as (doc & d1 & Hrun' & Hcoll & _ & _ & _ & Hkeys).
    rewrite Hrun' in Hrun. injection Hrun as <- <-.
    exists doc. split; [| split; [reflexivity | exact Hkeys]].
    unfold docs_of. rewrite Hdb. simpl. exact Hcoll.
  - unfold next_call_ok in Hok.
    destruct (faults d) as [| [e |] fs] eqn:Hf; try discriminate Hok.
    rewrite (create_document_fault name data w d e fs Hdb Hf) in Hrun.
    discriminate Hrun.
Qed.

Lemma listing_finds (name coach_id : string) (w : World num) (doc : Doc num) :
  reachable w ->
  In doc (docs_of w name) ->
  references coach_id doc = true ->
  exists items w',
    listing name coach_id w = (Ok items, w') /\ In (rename_id doc) items.
Proof.
  intros (d & Hdb & Hok) Hin Href.
  destruct (listing_run name coach_id w d Hdb Hok) as (items & w' & Hrun & Hperm & _).
  exists items, w'. split; [exact Hrun |].
  eapply Permutation_in; [symmetry; exact Hperm |].
  apply in_map. apply filter_In. split; assumption.
Qed.

Lemma create_review_ok_inv (review : Review num) (w w1 : World num) (review_id : string) :
  create_review review w = (Ok review_id, w1) ->
  exists w0,
    create_document "review" (review_data review w) w = (Ok review_id, w0)
    /\ docs_of w1 "review" = docs_of w0 "review".
Proof.
  intros Hrun.
  destruct (create_document "review" (review_data review w) w)
    as [[id | e] w0] eqn:Hdoc.
  - rewrite (create_review_run review w w0 id Hdoc) in Hrun.
    inversion Hrun; subst. exists w0. split; [reflexivity |].
    destruct (update_coach_aggregates review w0) as [r w2] eqn:Hagg. cbn [snd].
    apply (aggregates_keep_others _ _ _ _ "review" Hagg). discriminate.
  - unfold create_review, bind, get in Hrun. fold (review_data review w) in Hrun.
    rewrite Hdoc in Hrun. discriminate Hrun.
Qed.

(** X8.  A review that [create_review] has accepted is listed for its coach:
    when the store is reachable afterwards, [list_reviews] for the review's
    coach_id holds an item whose "id" is the id [create_review] returned,
    with the review's coach_id and the fields the caller sent, a created_at
    the caller sent included (it is not overwritten); when the caller sent
    none, the item carries the time of creation. *)
Theorem created_review_is_listed (review : Review num) (w w1 : World num)
    (review_id : string) :
  create_review review w = (Ok review_id, w1) ->
  reachable w1 ->
  exists items w2 item,
    list_reviews (review_coach_id review) w1 = (Ok items, w2)
    /\ In item items
    /\ item !! "id" = Some (VStr review_id)
    /\ item !! "_id" = None
    /\ item !! "coach_id" = Some (VStr (review_coach_id review))
    /\ (review_fields review !! "created_at" = None ->
        item !! "created_at" = Some (VDate (utcnow w)))
    /\ (forall key, key <> "_id" -> key <> "id" -> key <> "coach_id" ->
        (key = "created_at" -> is_Some (review_fields review !! key)) ->
        item !! key = review_fields review !! key).
Proof.
  intros Hrun Hreach.
  destruct (create_review_ok_inv review w w1 review_id Hrun) as (w0 & Hdoc & Hsame).
  destruct (create_document_ok_inv _ _ _ _ _ Hdoc) as (doc & Hcoll & Hid & Hkeys).
  assert (Hdata : forall key, key <> "created_at" ->
            review_data review w !! key = review_model_dump review !! key).
  { intros key Hne. unfold review_data, setdefault.
    destruct (review_model_dump review !! "created_at"); [reflexivity |].
    apply lookup_insert_ne. congruence. }
  assert (Hcoach : doc !! "coach_id" = Some (VStr (review_coach_id review))).
  { rewrite Hkeys, Hdata by discriminate. apply lookup_insert_eq. }
  destruct (listing_finds "review" (review_coach_id review) w1 doc Hreach)
    as (items & w2 & Hlist & Hin).
  { rewrite Hsame, Hcoll. apply in_or_app. right. left. reflexivity. }
  { unfold references. rewrite Hcoach. simpl. apply bool_decide_eq_true. reflexivity. }
  destruct (rename_id_lookup doc) as (Hno_id & Hnew_id & Hrest).
  exists items, w2, (rename_id doc). split; [exact Hlist |]. split; [exact Hin |].
  split; [rewrite Hnew_id, Hid; reflexivity |]. split; [exact Hno_id |].
  split; [rewrite Hrest by discriminate; exact Hcoach |]. split.
  - intros Habsent. rewrite Hrest, Hkeys by discriminate.
    unfold review_data, setdefault, review_model_dump.
    rewrite lookup_insert_ne by discriminate. rewrite Habsent.
    apply lookup_insert_eq.
  - intros key H_id Hid' Hcid Hcreated.
    rewrite Hrest, Hkeys by assumption.
    destruct (decide (key = "created_at")) as [-> | Hne].
    + destruct (Hcreated eq_refl) as [v Hv].
      rewrite (review_keeps_supplied_created_at review w v Hv).
      apply lookup_insert_ne. discriminate.
    + rewrite Hdata by exact Hne. apply lookup_insert_ne. congruence.
Qed.

(** X9.  A booking that [create_booking] has accepted is listed for its
    coach: when the booking names a coach_id and the store is reachable
    afterwards, [list_bookings_for_coach] for that coach_id holds an item
    whose "id" is the id [create_booking] returned, with the user_type, the
    athlete_age (null when the caller sent none) and the other fields the
    caller sent. *)
Theorem created_booking_is_listed (booking : Booking num) (coach_id : string)
    (w w1 : World num) (booking_id : string) :
  create_booking booking w = (Ok booking_id, w1) ->
  booking_fields booking !! "coach_id" = Some (VStr coach_id) ->
  reachable w1 ->
  exists items w2 item,
    list_bookings_for_coach coach_id w1 = (Ok items, w2)
    /\ In item items
    /\ item !! "id" = Some (VStr booking_id)
    /\ item !! "_id" = None
    /\ item !! "user_type" = Some (VStr (user_type booking))
    /\ item !! "athlete_age" = Some (match athlete_age booking with
                                     | Some age => VNum (py_int age)
                                     | None => VNone
                                     end)
    /\ (forall key, key <> "_id" -> key <> "id" -> key <> "user_type" ->
        key <> "athlete_age" -> item !! key = booking_fields booking !! key).
Proof.
  intros Hrun Hcoach Hreach.
  assert (Hdoc : create_document "booking" (booking_model_dump booking) w
                 = (Ok booking_id, w1)).
  { unfold create_booking, bind in Hrun.
    destruct (check_age_rule booking w) as [[[] | e] w0] eqn:Hrule;
      [| discriminate Hrun].
    assert (w0 = w) as ->.
    { unfold check_age_rule, raise, ret in Hrule.
      repeat match type of Hrule with
             | (if ?c then _ else _) _ = _ => destruct c
             end; first [discriminate Hrule | injection Hrule as <-; reflexivity]. }
    destruct (create_document "booking" _ w) as [[id | e] w2]; [| discriminate Hrun].
    exact Hrun. }
  destruct (create_document_ok_inv _ _ _ _ _ Hdoc) as (doc & Hcoll & Hid & Hkeys).
  assert (Hcid : doc !! "coach_id" = Some (VStr coach_id)).
  { rewrite Hkeys by discriminate. unfold booking_model_dump.
    rewrite !lookup_insert_ne by discriminate. exact Hcoach. }
  destruct (listing_finds "booking" coach_id w1 doc Hreach) as (items & w2 & Hlist & Hin).
  { rewrite Hcoll. apply in_or_app. right. left. reflexivity. }
  { unfold references. rewrite Hcid. simpl. apply bool_decide_eq_true. reflexivity. }
  destruct (rename_id_lookup doc) as (Hno_id & Hnew_id & Hrest).
  exists items, w2, (rename_id doc). split; [exact Hlist |]. split; [exact Hin |].
  split; [rewrite Hnew_id, Hid; reflexivity |]. split; [exact Hno_id |].
  split; [| split].
  - rewrite Hrest, Hkeys by discriminate. apply lookup_insert_eq.
  - rewrite Hrest, Hkeys by discriminate. unfold booking_model_dump.
    rewrite lookup_insert_ne by discriminate. apply lookup_insert_eq.
  - intros key H_id Hid' Hut Hage. rewrite Hrest, Hkeys by assumption.
    unfold booking_model_dump. rewrite !lookup_insert_ne by congruence. reflexivity.
Qed.

(** X10.  For a coach_id that no stored review (or booking) references, the
    list endpoint returns an empty list when the store is reachable: it does
    not look up the coach and raises no 404. *)
Theorem listing_nothing_is_empty (coach_id : string) (w : World num) :
  reachable w ->
  (List.filter (references coach_id) (docs_of w "review") = [] ->
   fst (list_reviews coach_id w) = Ok [])
  /\ (List.filter (references coach_id) (docs_of w "booking") = [] ->
      fst (list_bookings_for_coach coach_id w) = Ok []).
Proof.
  intros (d & Hdb & Hok). split; intros Hnone.
  - destruct (listing_run "review" coach_id w d Hdb Hok) as (items & w' & Hrun & Hperm & _).
    rewrite Hnone in Hperm. symmetry in Hperm. apply Permutation_nil in Hperm.
    subst items.
    change (list_reviews coach_id w) with (listing "review" coach_id w).
    rewrite Hrun. reflexivity.
  - destruct (listing_run "booking" coach_id w d Hdb Hok) as (items & w' & Hrun & Hperm & _).
    rewrite Hnone in Hperm. symmetry in Hperm. apply Permutation_nil in Hperm.
    subst items.
    change (list_bookings_for_coach coach_id w) with (listing "booking" coach_id w).
    rewrite Hrun. reflexivity.
Qed.

(** ** From creating a coach to looking her up *)

Lemma str_forallb_app (p : ascii -> bool) (s1 s2 : string) :
  str_forallb p (s1 +:+ s2) = str_forallb p s1 && str_forallb p s2.
Proof.
  induction s1 as [| c s1 IH]; simpl; [reflexivity |].
  rewrite IH. apply andb_assoc.
Qed.

Lemma str_lower_app (s1 s2 : string) :
  str_lower (s1 +:+ s2) = str_lower s1 +:+ str_lower s2.
Proof. induction s1 as [| c s1 IH]; simpl; [reflexivity | rewrite IH; reflexivity]. Qed.

Lemma str_length_app (s1 s2 : string) :
  String.length (s1 +:+ s2) = (String.length s1 + String.length s2)%nat.
Proof. induction s1 as [| c s1 IH]; simpl; [reflexivity | rewrite IH; reflexivity]. Qed.

Lemma hex_digit_ok (n : N) :
  is_hex_digit (hex_digit (n mod 16)%N) = true
  /\ ascii_lower (hex_digit (n mod 16)%N) = hex_digit (n mod 16)%N.
Proof.
  assert (Hlt : (N.to_nat (n mod 16) < 16)%nat).
  { pose proof (N.mod_upper_bound n 16). lia. }
  unfold hex_digit. destruct (N.to_nat (n mod 16)%N) as [| m]; [split; reflexivity |].
  do 15 (destruct m as [| m]; [split; reflexivity |]). lia.
Qed.

Lemma hex_of_ok (digits : nat) (n : N) :
  String.length (hex_of digits n) = digits
  /\ str_forallb is_hex_digit (hex_of digits n) = true
  /\ str_lower (hex_of digits n) = hex_of digits n.
Proof.
  revert n. induction digits as [| k IH]; intros n; simpl; [auto |].
  destruct (IH (n / 16)%N) as (Hlen & Hhex & Hlow).
  destruct (hex_digit_ok n) as [Hd Hl].
  rewrite str_length_app, str_forallb_app, str_lower_app, Hlen, Hhex, Hlow.
  simpl. rewrite Hd, Hl. repeat split. lia.
Qed.

#[local] Arguments hex_of : simpl never.
#[local] Arguments fresh_oid : simpl never.

(** The identifiers the store hands out are well-formed and read back as
    themselves. *)
Lemma fresh_oid_roundtrip (n : N) :
  ObjectId_of_str (oid_str (fresh_oid n)) = Ok (fresh_oid n).
Proof.
  unfold ObjectId_of_str, oid_is_valid, fresh_oid, oid_str.
  destruct (hex_of_ok 24 n) as (Hlen & Hhex & Hlow).
  rewrite Hlen, Hhex, Hlow, Nat.eqb_refl. reflexivity.
Qed.

Lemma create_document_fresh (name : string) (data : Doc num) (w : World num)
    (d : Database num) :
  db w = Some d ->
  next_call_ok d = true ->
  data !! "_id" = None ->
  create_document name data w
  = (Ok (oid_str (fresh_oid (next_id d))),
     set_db (Some (set_collections
                     <[name := (coll d name
                                ++ [<["_id" := VOid (fresh_oid (next_id d))]> data])%list]>
                     (set_next_id (next_id d + 1)%N (after_call d)))) w).
Proof.
  intros Hdb Hok Hnone. unfold create_document, bind. rewrite Hdb.
  rewrite (with_db_run _ w d Hdb).
  unfold insert_one, bind. rewrite (driver_call_ok d Hok).
  unfold get, modify, ret. rewrite Hnone. cbn [fst snd].
  rewrite lookup_insert_eq. simpl. rewrite py_str_oid. reflexivity.
Qed.

Lemma find_app_last {A} (p : A -> bool) (l : list A) (x : A) :
  existsb p l = false -> p x = true -> List.find p (l ++ [x])%list = Some x.
Proof.
  intros Hnone Hx. induction l as [| y l IH]; simpl in *.
  - rewrite Hx. reflexivity.
  - apply orb_false_iff in Hnone as [-> Hl]. apply IH. exact Hl.
Qed.

(** X11.  A coach that was created can be looked up under the id that came
    back: when the store is reachable and hands out an identifier that is not
    in use, [create_coach] returns an id under which [get_coach] answers with
    the coach, carrying that id as "id", no "_id", and every other field as
    it was sent. *)
Theorem created_coach_is_found (coach : Coach num) (w : World num)
    (d : Database num) :
  db w = Some d ->
  faults d = [] ->
  coach_fields coach !! "_id" = None ->
  next_id_is_free d "coach" ->
  exists coach_id w1 answer,
    create_coach coach w = (Ok coach_id, w1)
    /\ fst (get_coach coach_id w1) = Ok answer
    /\ answer !! "id" = Some (VStr coach_id)
    /\ answer !! "_id" = None
    /\ (forall key, key <> "_id" -> key <> "id" ->
          answer !! key = coach_fields coach !! key).
Proof.
  intros Hdb Hquiet Hnone Hfree.
  assert (Hok : next_call_ok d = true) by (unfold next_call_ok; rewrite Hquiet; reflexivity).
  set (oid := fresh_oid (next_id d)).
  set (doc := <["_id" := VOid oid]> (coach_fields coach)).
  set (d1 := set_collections <["coach" := (coll d "coach" ++ [doc])%list]>
               (set_next_id (next_id d + 1)%N (after_call d))).
  exists (oid_str oid), (set_db (Some d1) w), (rename_id doc). split.
  { unfold create_coach, bind.
    rewrite (create_document_fresh "coach" _ w d Hdb Hok Hnone). reflexivity. }
  destruct (rename_id_lookup doc) as (Hno_id & Hnew_id & Hrest).
  split; [| split; [| split; [exact Hno_id |]]].
  - apply (get_coach_found (oid_str oid) (set_db (Some d1) w) d1 oid doc).
    + reflexivity.
    + unfold next_call_ok. change (faults d1) with (tail (faults d)).
      rewrite Hquiet. reflexivity.
    + apply fresh_oid_roundtrip.
    + subst d1. rewrite coll_insert_eq. apply find_app_last; [exact Hfree |].
      unfold has_id. subst doc. rewrite lookup_insert_eq. cbn [field_has is_oid].
      apply bool_decide_eq_true. reflexivity.
  - apply rename_id_oid. subst doc. apply lookup_insert_eq.
  - intros key H_id Hid. rewrite Hrest by assumption. subst doc.
    apply lookup_insert_ne. congruence.
Qed.

(** ** The search, whatever the texts *)

Lemma compile_filter_raises (filt : Filter) :
  Exists (fun c => is_ok (compile_clause (num := num) c) = false) filt ->
  is_ok (compile_filter (num := num) filt) = false.
Proof.
  induction filt as [| c filt IH]; intros Hex; [inversion Hex |].
  cbn [compile_filter].
  destruct (compile_clause c) as [p | e] eqn:Hc; [| reflexivity].
  destruct (compile_filter filt) as [p' | e]; [| reflexivity].
  inversion Hex as [? ? Hbad | ? ? Hrest]; subst.
  - rewrite Hc in Hbad. discriminate Hbad.
  - specialize (IH Hrest). discriminate IH.
Qed.

Lemma Exists_add_clause (P : Clause -> Prop) (cond : bool) (c : Clause) (filt : Filter) :
  (cond = true /\ P c) \/ Exists P filt -> Exists P (add_clause cond c filt).
Proof.
  unfold add_clause. intros [[-> Hc] | Hfilt].
  - apply Exists_app. right. constructor. exact Hc.
  - destruct cond; [apply Exists_app; left |]; exact Hfilt.
Qed.

Lemma regex_field_rejected (name text : string) :
  is_ok (regex_compile text "i") = false ->
  is_ok (compile_clause (num := num) (Field name (CRegex text "i"))) = false.
Proof.
  intros Hbad. cbn [compile_clause compile_fields compile_cond].
  destruct (regex_compile text "i"); [discriminate Hbad | reflexivity].
Qed.

Lemma regex_or_rejected (name1 name2 text : string) :
  is_ok (regex_compile text "i") = false ->
  is_ok (compile_clause (num := num)
           (Or [ [(name1, CRegex text "i")]; [(name2, CRegex text "i")] ])) = false.
Proof.
  intros Hbad. cbn [compile_clause compile_alternatives compile_fields compile_cond].
  destruct (regex_compile text "i"); [discriminate Hbad | reflexivity].
Qed.

Lemma compile_filter_raise_inv (filt : Filter) (e : Exn) :
  compile_filter (num := num) filt = Raise e ->
  exists c, In c filt /\ compile_clause (num := num) c = Raise e.
Proof.
  induction filt as [| c filt IH]; cbn [compile_filter]; [discriminate |].
  destruct (compile_clause c) as [p | e0] eqn:Hc.
  - destruct (compile_filter filt) as [p' | e1]; [discriminate |].
    intros [= ->]. destruct (IH eq_refl) as (c' & Hin & Hc').
    exists c'. split; [right; exact Hin | exact Hc'].
  - intros [= ->]. exists c. split; [left; reflexivity | exact Hc].
Qed.

Lemma In_add_clause (c c0 : Clause) (cond : bool) (filt : Filter) :
  In c (add_clause cond c0 filt) -> (cond = true /\ c = c0) \/ In c filt.
Proof.
  unfold add_clause. destruct cond; [| auto].
  intros Hin. apply in_app_or in Hin as [Hin | [<- | []]]; auto.
Qed.

Lemma regex_field_raise (name text : string) (e : Exn) :
  compile_clause (num := num) (Field name (CRegex text "i")) = Raise e ->
  regex_compile text "i" = Raise e.
Proof.
  cbn [compile_clause compile_fields compile_cond].
  destruct (regex_compile text "i"); [discriminate | intros [= ->]; reflexivity].
Qed.

Lemma regex_or_raise (name1 name2 text : string) (e : Exn) :
  compile_clause (num := num)
    (Or [ [(name1, CRegex text "i")]; [(name2, CRegex text "i")] ]) = Raise e ->
  regex_compile text "i" = Raise e.
Proof.
  cbn [compile_clause compile_alternatives compile_fields compile_cond].
  destruct (regex_compile text "i"); [discriminate | intros [= ->]; reflexivity].
Qed.

(** X12.  A city, state or q text that the store rejects as a regular
    expression makes the whole search fail, in every world.  With the store
    reachable, what [search_coaches] raises is the store's own error for one
    of the rejected texts, as the store raised it: the handler has no [try],
    so the error is neither turned into a 400 nor into an empty list. *)
Theorem search_fails_on_rejected_pattern (query : CoachQuery) (w : World num) :
  rejected_if_given (city query) \/ rejected_if_given (state query)
  \/ rejected_if_given (q query) ->
  is_ok (fst (search_coaches query w)) = false
  /\ (reachable w ->
      exists e,
        fst (search_coaches query w) = Raise e
        /\ (rejected_with (city query) e \/ rejected_with (state query) e
            \/ rejected_with (q query) e)).
Proof.
  intros Hbad.
  assert (Hfilt : is_ok (compile_filter (num := num) (search_filter query)) = false).
  { apply compile_filter_raises. unfold search_filter.
    destruct Hbad as [[Hg Hc] | [[Hg Hc] | [Hg Hc]]].
    - apply Exists_add_clause. right. apply Exists_add_clause. right.
      apply Exists_add_clause. left. split; [exact Hg |].
      apply regex_field_rejected. exact Hc.
    - apply Exists_add_clause. right. apply Exists_add_clause. left.
      split; [exact Hg |]. apply regex_field_rejected. exact Hc.
    - apply Exists_add_clause. left. split; [exact Hg |].
      apply regex_or_rejected. exact Hc. }
  split.
  - unfold search_coaches, bind, get_documents, with_db.
    destruct (db w) as [d |]; [| reflexivity].
    unfold find, bind, lift.
    destruct (driver_call d) as [[[] | e] d1]; [| reflexivity].
    destruct (compile_filter (search_filter query)); [discriminate Hfilt | reflexivity].
  - intros (d & Hdb & Hok).
    destruct (compile_filter (search_filter query)) as [p | e] eqn:Hcomp;
      [discriminate Hfilt |].
    exists e. split.
    + unfold search_coaches, bind, get_documents. rewrite Hdb.
      rewrite (with_db_run _ w d Hdb). unfold find, bind.
      rewrite (driver_call_ok d Hok). unfold lift. rewrite Hcomp. reflexivity.
    + destruct (compile_filter_raise_inv _ _ Hcomp) as (c & Hin & Hc).
      unfold search_filter in Hin. cbv zeta in Hin.
      apply In_add_clause in Hin as [[Hg ->] | Hin];
        [right; right; split; [exact Hg | exact (regex_or_raise _ _ _ _ Hc)] |].
      apply In_add_clause in Hin as [[Hg ->] | Hin];
        [right; left; split; [exact Hg | exact (regex_field_raise _ _ _ Hc)] |].
      apply In_add_clause in Hin as [[Hg ->] | Hin];
        [left; split; [exact Hg | exact (regex_field_raise _ _ _ Hc)] |].
      apply In_add_clause in Hin as [[Hg ->] | []].
      discriminate Hc.
Qed.

Lemma filter_sublist {A} (p : A -> bool) (l : list A) : sublist (List.filter p l) l.
Proof.
  induction l as [| x l IH]; simpl; [constructor |].
  destruct (p x); [apply sublist_skip | apply sublist_cons]; exact IH.
Qed.

(** X13.  Whatever the texts and the store, a search that returns hands back
    at most 50 items, and they are stored coaches, each renamed from "_id" to
    "id", in the order the store keeps them: nothing is invented, repeated or
    reordered. *)
Theorem search_returns_stored_coaches (query : CoachQuery) (w w' : World num)
    (items : list (Doc num)) :
  search_coaches query w = (Ok items, w') ->
  exists docs,
    sublist docs (docs_of w "coach")
    /\ items = rename_id <$> docs
    /\ (length items <= 50)%nat.
Proof.
  unfold search_coaches, bind, get_documents, with_db, docs_of.
  destruct (db w) as [d |]; [| discriminate].
  unfold find, bind, lift, get, ret.
  destruct (driver_call d) as [[[] | e] d1] eqn:Hc; [| discriminate].
  apply driver_call_collections in Hc.
  destruct (compile_filter (search_filter query)) as [p | e]; [| discriminate].
  intros [= <- _]. eexists. split; [| split; [reflexivity |]].
  - etransitivity; [apply sublist_take |].
    unfold coll. rewrite Hc. apply filter_sublist.
  - rewrite length_fmap, length_take. lia.
Qed.

End MoreProperties.

(** * The handlers at work

    The handlers run on the sample store, over the reference platform. *)
Module Examples.

Import QArith.
Import Sample.
Local Open Scope Z_scope.
#[local] Existing Instance Reference.platform.

(** C1 at work: the identifier is well-formed and no coach has it, and the
    answer is the 400 of the [except] clause, not the 404 raised in the
    [try]. *)
Lemma get_coach_absent_id_answers_400 :
  oid_is_valid absent_id = true
  /\ List.find (has_id (Oid absent_id)) (docs_of world "coach") = None
  /\ fst (get_coach absent_id world) = Raise (HTTPException 400 "Invalid coach id").
Proof. repeat split; vm_compute; reflexivity. Qed.

Example get_coach_malformed_id_answers_400 :
  fst (get_coach "xyz" world) = Raise (HTTPException 400 "Invalid coach id").
Proof. vm_compute. reflexivity. Qed.

Example get_coach_present :
  (fun c : Doc Q => (c !! "id", c !! "_id", c !! "full_name"))
    <$> match fst (get_coach ann_id world) with Ok c => Some c | Raise _ => None end
  = Some (Some (VStr ann_id), None, Some (VStr "Ann Lee")).
Proof. vm_compute. reflexivity. Qed.

(** The stale aggregates (5 over 7 reviews) are replaced by the mean of the
    two stored ratings, 4 and 5. *)
Example aggregates_after_review :
  fst (create_review new_review world) = Ok "000000000000000000000000"
  /\ (fun c : Doc Q => (c !! "average_rating", c !! "review_count"))
       <$> docs_of (snd (create_review new_review world)) "coach"
     = [(Some (VNum (9 # 2)%Q), Some (VNum (2 # 1)%Q))].
Proof. split; vm_compute; reflexivity. Qed.

Example booking_accepted_is_persisted :
  fst (create_booking (mkBooking "adult" (Some 25) ∅) world)
  = Ok "000000000000000000000000"
  /\ length (docs_of (snd (create_booking (mkBooking "adult" (Some 25) ∅) world))
               "booking") = 1%nat.
Proof. split; vm_compute; reflexivity. Qed.

Example reviews_listed_newest_first :
  fields_of (fst (list_reviews ann_id (snd (create_review new_review world))))
            "created_at"
  = Ok [Some (VDate 200); Some (VDate 100)].
Proof. vm_compute. reflexivity. Qed.

(** C6 as stated fails: the city text "." is no substring of "Austin", so the
    spec's filter rejects Ann, and the search returns her all the same: the
    store reads the text as a pattern, in which [.] stands for any
    character. *)
Lemma search_city_dot_returns_austin :
  ci_contains "." "Austin" = false
  /\ spec_matches dot_query ann = false
  /\ fields_of (fst (search_coaches dot_query world)) "location_city"
     = Ok [Some (VStr "Austin")].
Proof. repeat split; vm_compute; reflexivity. Qed.

(** C3 as stated fails.  Ann has one stored review, rating 4, under the
    lower-case spelling of her identifier; a second review, rating 1, names
    her in upper-case hex, which is the same identifier.  Both stored reviews
    are hers: their ratings are 4 and 1, their mean rounds to 5/2 and they are
    two.  Her document says 1 and 1: the aggregates were computed from the
    reviews stored under the upper-case text alone. *)
Lemma review_in_upper_case_miscounts :
  ObjectId_of_str ann_id_upper = Ok (Oid ann_id)
  /\ fst (create_review shouted_review world) = Ok "000000000000000000000000"
  /\ rating_or_zero
       <$> List.filter (names_coach (Oid ann_id))
             (docs_of (snd (create_review shouted_review world)) "review")
     = [(4 # 1)%Q; (1 # 1)%Q]
  /\ py_round
       (mean_rating (List.filter (names_coach (Oid ann_id))
                       (docs_of (snd (create_review shouted_review world)) "review")))
       2
     = (5 # 2)%Q
  /\ (fun c : Doc Q => (c !! "_id", c !! "average_rating", c !! "review_count"))
       <$> docs_of (snd (create_review shouted_review world)) "coach"
     = [(Some (VOid (Oid ann_id)), Some (VNum (1 # 1)%Q), Some (VNum (1 # 1)%Q))].
Proof. repeat split; vm_compute; reflexivity. Qed.

Lemma review_recomputes_coach_aggregates_witness :
  exists review_id w',
    create_review new_review world = (Ok review_id, w')
    /\ let reviews := List.filter (references ann_id) (docs_of w' "review") in
       Forall rating_is_numeric reviews ->
       exists coach,
         List.find (has_id (Oid ann_id)) (docs_of w' "coach") = Some coach
         /\ coach !! "average_rating" = Some (VNum (py_round (mean_rating reviews) 2))
         /\ coach !! "review_count"
            = Some (VNum (py_int (Z.of_nat (length reviews)))).
Proof.
  apply (review_recomputes_coach_aggregates new_review world store (Oid ann_id));
    vm_compute; reflexivity.
Defined.

Lemma review_survives_aggregate_failure_witness :
  exists w2,
    create_review stray_review world = (Ok "000000000000000000000000", w2)
    /\ (oid_is_valid "nobody" = false ->
        w2 = snd (create_document "review" (review_data stray_review world) world))
    /\ (forall e w',
          update_coach_aggregates stray_review
            (snd (create_document "review" (review_data stray_review world) world))
          = (Raise e, w') ->
          w2 = w'
          /\ forall name,
               docs_of w2 name
               = docs_of (snd (create_document "review"
                                 (review_data stray_review world) world)) name).
Proof.
  apply (review_survives_aggregate_failure stray_review world).
  vm_compute. reflexivity.
Defined.

Lemma review_stamped_with_current_time_witness :
  exists review_id w' doc,
    create_review new_review world = (Ok review_id, w')
    /\ docs_of w' "review" = (docs_of world "review" ++ [doc])%list
    /\ doc !! "created_at" = Some (VDate 200)
    /\ (forall key, key <> "_id" -> key <> "created_at" ->
          doc !! key = review_model_dump new_review !! key).
Proof.
  apply (review_stamped_with_current_time new_review world store);
    vm_compute; reflexivity.
Defined.

Lemma violation_rejected_before_persistence_witness :
  exists detail,
    create_booking (mkBooking "adult" (Some 17) ∅) world
    = (Raise (HTTPException 400 detail), world)
    /\ (detail = adult_message \/ detail = parent_message)
    /\ (0 < str_len detail)%nat.
Proof.
  apply (violation_rejected_before_persistence (mkBooking "adult" (Some 17) ∅) world).
  left. split; [reflexivity |]. exists 17. split; [reflexivity | lia].
Defined.

Lemma non_adult_held_to_parent_rule_witness :
  (forall age, Some 12 = Some age -> age < 18 ->
     create_booking (mkBooking "guardian" (Some 12) ∅) world
     = persist_booking (mkBooking "guardian" (Some 12) ∅) world)
  /\ (forall age, Some 12 = Some age -> 18 <= age ->
     create_booking (mkBooking "guardian" (Some 12) ∅) world
     = (Raise (HTTPException 400 parent_message), world))
  /\ (Some 12 = None ->
     create_booking (mkBooking "guardian" (Some 12) ∅) world
     = (Raise (HTTPException 400 parent_message), world))
  /\ create_booking (mkBooking "adult" None ∅) world
     = persist_booking (mkBooking "adult" None ∅) world.
Proof.
  apply (non_adult_held_to_parent_rule (mkBooking "guardian" (Some 12) ∅) world).
  discriminate.
Defined.


(** The store keeps Ann's reviews in the order 100, 300, 200 and her bookings
    in the order 50, 70, with those of another coach between them; the
    endpoints list hers alone, the newest first, under their "id". *)
Example busy_reviews_listed_newest_first :
  fields_of (fst (list_reviews ann_id busy_world)) "created_at"
  = Ok [Some (VDate 300); Some (VDate 200); Some (VDate 100)]
  /\ fields_of (fst (list_reviews ann_id busy_world)) "id"
     = Ok [Some (VStr "aaaaaaaaaaaaaaaaaaaaaaa3"); Some (VStr "aaaaaaaaaaaaaaaaaaaaaaa4");
           Some (VStr "aaaaaaaaaaaaaaaaaaaaaaa1")]
  /\ fields_of (fst (list_reviews ann_id busy_world)) "_id" = Ok [None; None; None].
Proof. repeat split; vm_compute; reflexivity. Qed.

Example busy_bookings_listed_newest_first :
  fields_of (fst (list_bookings_for_coach ann_id busy_world)) "created_at"
  = Ok [Some (VDate 70); Some (VDate 50)]
  /\ fields_of (fst (list_bookings_for_coach ann_id busy_world)) "id"
     = Ok [Some (VStr "bbbbbbbbbbbbbbbbbbbbbbb3"); Some (VStr "bbbbbbbbbbbbbbbbbbbbbbb1")]
  /\ fields_of (fst (list_bookings_for_coach ann_id busy_world)) "_id" = Ok [None; None].
Proof. repeat split; vm_compute; reflexivity. Qed.

Lemma search_coaches_plain_texts_witness :
  exists items w',
    search_coaches plain_query world = (Ok items, w')
    /\ items = rename_id
                 <$> take 50 (List.filter (spec_matches plain_query)
                                (docs_of world "coach"))
    /\ (length items <= 50)%nat
    /\ Forall (fun item => item !! "_id" = None /\ is_Some (item !! "id")) items
    /\ (truthy (sport plain_query) = false -> truthy (city plain_query) = false ->
        truthy (state plain_query) = false -> truthy (q plain_query) = false ->
        items = rename_id <$> take 50 (docs_of world "coach")).
Proof.
  apply (search_coaches_plain_texts plain_query world store);
    try (vm_compute; reflexivity); intros _; vm_compute; reflexivity.
Defined.

Example plain_search_finds_ann :
  fields_of (fst (search_coaches plain_query world)) "full_name"
  = Ok [Some (VStr "Ann Lee")].
Proof. vm_compute. reflexivity. Qed.

End Examples.

(** * Further runs on the sample store *)
Module MoreExamples.

Import QArith.
Import Sample.
Local Open Scope Z_scope.
#[local] Existing Instance Reference.platform.

Lemma world_reachable : reachable world.
Proof. exists store. split; reflexivity. Defined.

Lemma failing_world_fails : next_call_fails failing_world store_down.
Proof. eexists _, _. split; reflexivity. Defined.

Lemma get_coach_returns_stored_coach_witness :
  fst (get_coach ann_id_upper world) = Ok (rename_id ann)
  /\ (ann !! "_id" = Some (VOid (Oid (str_lower ann_id_upper))) ->
      rename_id ann !! "id" = Some (VStr (str_lower ann_id_upper))).
Proof.
  apply (get_coach_returns_stored_coach ann_id_upper world store ann);
    vm_compute; reflexivity.
Defined.

Lemma store_failure_surfaces_from_reads_witness :
  fst (list_reviews ann_id failing_world) = Raise store_down
  /\ fst (list_bookings_for_coach ann_id failing_world) = Raise store_down
  /\ fst (search_coaches plain_query failing_world) = Raise store_down.
Proof.
  apply (store_failure_surfaces_from_reads ann_id plain_query failing_world store_down).
  exact failing_world_fails.
Defined.

Lemma store_failure_surfaces_from_writes_witness :
  (fst (create_coach bo failing_world) = Raise store_down
   /\ forall name,
        docs_of (snd (create_coach bo failing_world)) name = docs_of failing_world name)
  /\ (fst (create_review new_review failing_world) = Raise store_down
      /\ forall name,
           docs_of (snd (create_review new_review failing_world)) name
           = docs_of failing_world name)
  /\ (check_age_rule child_booking failing_world = (Ok tt, failing_world) ->
      fst (create_booking child_booking failing_world) = Raise store_down
      /\ forall name,
           docs_of (snd (create_booking child_booking failing_world)) name
           = docs_of failing_world name).
Proof.
  apply (store_failure_surfaces_from_writes bo new_review child_booking
           failing_world store_down).
  exact failing_world_fails.
Defined.

Lemma without_store_handle_witness :
  list_reviews ann_id unconfigured_world = (Raise not_subscriptable, unconfigured_world)
  /\ list_bookings_for_coach ann_id unconfigured_world
     = (Raise not_subscriptable, unconfigured_world)
  /\ get_coach ann_id unconfigured_world = (Raise invalid_coach_id, unconfigured_world)
  /\ exists response,
       test_database unconfigured_world = (Ok response, unconfigured_world)
       /\ response !! "database" = Some (VStr "⚠️  Available but not initialized")
       /\ response !! "connection_status" = Some (VStr "Not Connected")
       /\ response !! "collections" = Some (VList [])
       /\ response !! "database_url" = Some VNone
       /\ response !! "database_name" = Some VNone.
Proof. apply (without_store_handle ann_id unconfigured_world). reflexivity. Defined.

Lemma created_review_is_listed_witness :
  exists items w2 item,
    list_reviews ann_id (snd (create_review new_review world)) = (Ok items, w2)
    /\ In item items
    /\ item !! "id" = Some (VStr "000000000000000000000000")
    /\ item !! "_id" = None
    /\ item !! "coach_id" = Some (VStr ann_id)
    /\ (review_fields new_review !! "created_at" = None ->
        item !! "created_at" = Some (VDate 200))
    /\ (forall key, key <> "_id" -> key <> "id" -> key <> "coach_id" ->
        (key = "created_at" -> is_Some (review_fields new_review !! key)) ->
        item !! key = review_fields new_review !! key).
Proof.
  apply (created_review_is_listed new_review world
           (snd (create_review new_review world)) "000000000000000000000000").
  - vm_compute. reflexivity.
  - eexists. split; vm_compute; reflexivity.
Defined.

Lemma created_booking_is_listed_witness :
  exists items w2 item,
    list_bookings_for_coach ann_id (snd (create_booking child_booking world))
    = (Ok items, w2)
    /\ In item items
    /\ item !! "id" = Some (VStr "000000000000000000000000")
    /\ item !! "_id" = None
    /\ item !! "user_type" = Some (VStr "parent")
    /\ item !! "athlete_age" = Some (VNum (py_int 12))
    /\ (forall key, key <> "_id" -> key <> "id" -> key <> "user_type" ->
        key <> "athlete_age" -> item !! key = booking_fields child_booking !! key).
Proof.
  apply (created_booking_is_listed child_booking ann_id world
           (snd (create_booking child_booking world)) "000000000000000000000000").
  - vm_compute. reflexivity.
  - vm_compute. reflexivity.
  - eexists. split; vm_compute; reflexivity.
Defined.

Lemma listing_nothing_is_empty_witness :
  (List.filter (references absent_id) (docs_of world "review") = [] ->
   fst (list_reviews absent_id world) = Ok [])
  /\ (List.filter (references absent_id) (docs_of world "booking") = [] ->
      fst (list_bookings_for_coach absent_id world) = Ok []).
Proof. apply (listing_nothing_is_empty absent_id world). exact world_reachable. Defined.

Lemma created_coach_is_found_witness :
  exists coach_id w1 answer,
    create_coach bo world = (Ok coach_id, w1)
    /\ fst (get_coach coach_id w1) = Ok answer
    /\ answer !! "id" = Some (VStr coach_id)
    /\ answer !! "_id" = None
    /\ (forall key, key <> "_id" -> key <> "id" ->
          answer !! key = coach_fields bo !! key).
Proof.
  apply (created_coach_is_found bo world store); vm_compute; reflexivity.
Defined.

Lemma search_fails_on_rejected_pattern_witness :
  is_ok (fst (search_coaches paren_query world)) = false
  /\ exists e,
       fst (search_coaches paren_query world) = Raise e
       /\ (rejected_with (city paren_query) e \/ rejected_with (state paren_query) e
           \/ rejected_with (q paren_query) e).
Proof.
  assert (Hbad : rejected_if_given (num := Q) (city paren_query)
                 \/ rejected_if_given (num := Q) (state paren_query)
                 \/ rejected_if_given (num := Q) (q paren_query))
    by (left; split; vm_compute; reflexivity).
  split.
  - exact (proj1 (search_fails_on_rejected_pattern paren_query world Hbad)).
  - exact (proj2 (search_fails_on_rejected_pattern paren_query world Hbad)
             world_reachable).
Defined.

(** The unbalanced parenthesis at work: the store's error reaches the caller
    as it is. *)
Example paren_search_raises_store_error :
  fst (search_coaches paren_query world)
  = Raise (PyMongoError "Regular expression is invalid")
  /\ regex_compile "(" "i" = Raise (PyMongoError "Regular expression is invalid").
Proof. split; vm_compute; reflexivity. Qed.

Lemma search_returns_stored_coaches_witness :
  exists docs,
    sublist docs (docs_of world "coach")
    /\ [rename_id ann] = rename_id <$> docs
    /\ (length [rename_id ann] <= 50)%nat.
Proof.
  apply (search_returns_stored_coaches dot_query world
           (snd (search_coaches dot_query world)) [rename_id ann]).
  vm_compute. reflexivity.
Defined.

Lemma bad_rating_freezes_aggregates_witness :
  docs_of (snd (create_review unrated_review world)) "coach" = docs_of world "coach".
Proof.
  apply (bad_rating_freezes_aggregates unrated_review world
           (snd (create_review unrated_review world)) "000000000000000000000000").
  - vm_compute. reflexivity.
  - apply Exists_not_numeric. vm_compute. reflexivity.
  - discriminate.
Defined.

(** The review with the [None] rating is stored, and Ann keeps the stale
    aggregates she had. *)
Example unrated_review_is_stored :
  length (docs_of (snd (create_review unrated_review world)) "review") = 2%nat
  /\ (fun c : Doc Q => (c !! "average_rating", c !! "review_count"))
       <$> docs_of (snd (create_review unrated_review world)) "coach"
     = [(Some (VNum (5 # 1)%Q), Some (VNum (7 # 1)%Q))].
Proof. split; vm_compute; reflexivity. Qed.

End MoreExamples.
